(** * Time estimation, reminder scheduling and conflict resolution

    A shallow embedding of the scheduling core of the application:
    - [utils/timeAnalytics]: the completion history store and the
      personalized estimate ([addRecordToHistory], [calculateEWMA],
      [getPersonalizedEstimate]);
    - [components/CalendarPage.tsx]: the wall-clock helpers
      ([timeToMinutes], [minutesToTime], [doTimesOverlap]), the derived list
      [activeReminders], the anchor move ([moveEvent], [handleDrop],
      [resolveConflict]) and the reminder actions ([handleReminderAction]);
    - the theme engine: the DND test of [determineOptimalTheme].

    Conventions of the embedding.
    - A JavaScript number that the calendar code handles is an integer or
      [NaN]: type [num].  The numbers of the estimator are rationals ([Q]),
      the idealisation of the doubles of the source; [Math.round] is the
      floor of [x + 1/2].
    - A [Date] is its [getTime()] value in milliseconds, read in the local
      time zone (a fixed offset, no daylight-saving jumps); an invalid date
      is [NaN].  The clock ([new Date()], [Date.now()]) is an argument. *)

From Stdlib Require Import ZArith QArith Qround Qabs Lia Ascii String DecimalString.
From Stdlib Require Import Sorted Permutation.
From stdpp Require Import base list gmap strings.

Local Open Scope string_scope.
Local Open Scope list_scope.
Local Open Scope Z_scope.

(** ** JavaScript primitives used by the source *)

Module JS.

(** Numbers of the calendar code: integers and [NaN]. *)
Inductive num : Type :=
| NaN : num
| Int : Z -> num.

Definition lift2 (f : Z -> Z -> Z) (a b : num) : num :=
  match a, b with
  | Int x, Int y => Int (f x y)
  | _, _ => NaN
  end.

Definition add : num -> num -> num := lift2 Z.add.
Definition sub : num -> num -> num := lift2 Z.sub.
Definition mul : num -> num -> num := lift2 Z.mul.

(** [a % b]: the remainder has the sign of the dividend; [x % 0] is NaN. *)
Definition rem (a b : num) : num :=
  match a, b with
  | Int x, Int y => if y =? 0 then NaN else Int (Z.rem x y)
  | _, _ => NaN
  end.

(** [Math.floor(a / b)] for a positive integer constant [b]. *)
Definition floor_div (a : num) (b : Z) : num :=
  match a with
  | Int x => Int (x / b)
  | NaN => NaN
  end.

(** Comparisons: every comparison with [NaN] is false. *)
Definition lt (a b : num) : bool :=
  match a, b with
  | Int x, Int y => x <? y
  | _, _ => false
  end.
Definition le (a b : num) : bool :=
  match a, b with
  | Int x, Int y => x <=? y
  | _, _ => false
  end.
Definition gt (a b : num) : bool := lt b a.
Definition ge (a b : num) : bool := le b a.

Definition isNaN (a : num) : bool :=
  match a with NaN => true | Int _ => false end.

(** [Number(s)] on the strings a schedule carries: the empty string is 0,
    an optionally signed run of decimal digits is its value.  Every other
    string is [NaN] here; the further literals [Number] accepts (blanks
    around the digits, fractions, exponents, radix prefixes, Infinity) do
    not occur in "HH:mm" data and are outside the modelled fragment. *)
Definition digit_of (c : ascii) : option Z :=
  let n := Z.of_nat (nat_of_ascii c) in
  if (48 <=? n) && (n <=? 57) then Some (n - 48) else None.

Fixpoint digits_value (acc : Z) (s : string) : option Z :=
  match s with
  | EmptyString => Some acc
  | String c s' =>
      match digit_of c with
      | Some d => digits_value (10 * acc + d) s'
      | None => None
      end
  end.

Definition of_option (o : option Z) : num :=
  match o with Some z => Int z | None => NaN end.

Definition Number (s : string) : num :=
  match s with
  | EmptyString => Int 0
  | String "-" (String _ _ as s') => of_option (Z.opp <$> digits_value 0 s')
  | String "+" (String _ _ as s') => of_option (digits_value 0 s')
  | String "-" EmptyString | String "+" EmptyString => NaN
  | _ => of_option (digits_value 0 s)
  end.

(** [String(n)]. *)
Definition String_ (n : num) : string :=
  match n with
  | NaN => "NaN"
  | Int z => NilZero.string_of_int (Z.to_int z)
  end.

(** [s.padStart(2, '0')]. *)
Definition padStart2 (s : string) : string :=
  match s with
  | EmptyString => "00"
  | String c EmptyString => String "0" (String c EmptyString)
  | _ => s
  end.

(** [s.split(':')]: the pieces between the colons, at least one. *)
Fixpoint split_colon (s : string) : list string :=
  match s with
  | EmptyString => [EmptyString]
  | String c s' =>
      if Ascii.eqb c ":" then EmptyString :: split_colon s'
      else match split_colon s' with
           | p :: ps => String c p :: ps
           | [] => [String c EmptyString]
           end
  end.

(** [const [a, b] = s.split(':').map(Number)]: a missing second piece is
    [undefined], which behaves as [NaN] in arithmetic and under [isNaN]. *)
Definition split_numbers (s : string) : num * num :=
  match split_colon s with
  | a :: b :: _ => (Number a, Number b)
  | a :: [] => (Number a, NaN)
  | [] => (NaN, NaN)
  end.

(** [Array.prototype.sort(cmp)]: a stable sort; [cmp a b > 0] puts [a]
    after [b], and a [NaN] from the comparator counts as 0. *)
Section Sort.
Context {A : Type} (cmp : A -> A -> num).

Definition after (a b : A) : bool := gt (cmp a b) (Int 0).

Fixpoint insert_sorted (x : A) (l : list A) : list A :=
  match l with
  | [] => [x]
  | y :: l' => if after x y then y :: insert_sorted x l' else x :: l
  end.

Definition sort (l : list A) : list A := foldr insert_sorted [] l.
End Sort.

(** [Math.round] on a rational: the nearest integer, halves upwards. *)
Definition Math_round (x : Q) : Z := Qfloor (x + (1 # 2)).

End JS.

Import JS.

(** ** The data model ([types.ts]) *)

Inductive Day : Type :=
| Monday | Tuesday | Wednesday | Thursday | Friday | Saturday | Sunday.

#[global] Instance Day_eq_dec : EqDecision Day.
Proof. solve_decision. Defined.

(** An anchor. *)
Record ScheduleEvent : Type := mkEvent {
  ev_id : string;
  ev_day : Day;
  ev_title : string;
  ev_startTime : string;
  ev_endTime : string
}.

Record DNDWindow : Type := mkDND {
  dnd_day : Day;
  dnd_startTime : string;
  dnd_endTime : string
}.

(** ** Wall-clock helpers ([CalendarPage.tsx], lines 63-81) *)

Definition timeToMinutes (time : string) : num :=
  match time with
  | EmptyString => Int 0
  | _ => let '(hours, minutes) := split_numbers time in
         add (mul hours (Int 60)) minutes
  end.

Definition minutesToTime (minutes : num) : string :=
  let h := rem (floor_div minutes 60) (Int 24) in
  let m := rem minutes (Int 60) in
  padStart2 (String_ h) +:+ ":" +:+ padStart2 (String_ m).

Definition doTimesOverlap (startA endA startB endB : string) : bool :=
  let startAMin := timeToMinutes startA in
  let endAMin := timeToMinutes endA in
  let startBMin := timeToMinutes startB in
  let endBMin := timeToMinutes endB in
  lt startAMin endBMin && gt endAMin startBMin.


(** ** Dates *)

Definition msPerMinute : Z := 60000.
Definition msPerHour : Z := 3600000.
Definition msPerDay : Z := 86400000.

(** Local midnight of the day of [d]. *)
Definition startOfDay (d : Z) : Z := d / msPerDay * msPerDay.

(** [d.setHours(h, m, 0, 0)] on a valid date: hours and minutes out of
    range carry over, a [NaN] argument gives an invalid date. *)
Definition setHours (d : Z) (h m : num) : num :=
  add (add (Int (startOfDay d)) (mul h (Int msPerHour))) (mul m (Int msPerMinute)).

(** [d.setDate(d.getDate() + k)]. *)
Definition addDays (d : num) (k : Z) : num := add d (Int (k * msPerDay)).

(** [d.getDay()], 0 for Sunday; day 0 of the time line is a Thursday. *)
Definition getDay (d : Z) : Z := (4 + d / msPerDay) mod 7.

Definition DAYS_OF_WEEK : list Day :=
  [Monday; Tuesday; Wednesday; Thursday; Friday; Saturday; Sunday].

(** [DAYS_OF_WEEK[now.getDay() === 0 ? 6 : now.getDay() - 1]]. *)
Definition todayDay (now : Z) : Day :=
  let i := if getDay now =? 0 then 6 else getDay now - 1 in
  default Monday (DAYS_OF_WEEK !! Z.to_nat i).

(** A non-empty string is truthy. *)
Definition truthy (s : string) : bool :=
  match s with EmptyString => false | _ => true end.

(** ** Reminders ([types.ts]) *)

Inductive ReminderStatus : Type := Active | Snoozed | Done | Paused | Ignored.

#[global] Instance ReminderStatus_eq_dec : EqDecision ReminderStatus.
Proof. solve_decision. Defined.

Inductive SuccessState : Type := success | snoozed | ignored.

(** The fields of [SmartReminder] that the scheduling code reads or writes.
    [snoozedUntil] is [None] for [null], otherwise the instant its ISO
    string denotes. *)
Record SmartReminder : Type := mkReminder {
  r_id : string;
  r_eventId : string;
  r_offsetMinutes : Z;
  r_message : string;
  r_isLocked : bool;
  r_isExploratory : bool;
  r_status : ReminderStatus;
  r_snoozeHistory : list Z;
  r_snoozedUntil : option num;
  r_successHistory : list SuccessState;
  r_originalOffsetMinutes : option Z;
  r_lastInteraction : option Z;
  r_allowExploration : option bool
}.

(** An element of the [activeReminders] list:
    [{ ...r, event, triggerTime, shiftedReason }]. *)
Record ActiveReminder : Type := mkActive {
  ar_reminder : SmartReminder;
  ar_event : ScheduleEvent;
  ar_triggerTime : num;
  ar_shiftedReason : option string
}.

(** ** [activeReminders] ([CalendarPage.tsx], lines 816-873) *)

Definition isSnoozedOrPaused (r : SmartReminder) : bool :=
  bool_decide (r_status r = Snoozed) || bool_decide (r_status r = Paused).

Definition isListed (r : SmartReminder) : bool :=
  bool_decide (r_status r = Active) || isSnoozedOrPaused r.

(** Lines 827-835: the trigger time before the stale check and the shift. *)
Definition baseTrigger (now : Z) (event : ScheduleEvent) (r : SmartReminder) : num :=
  let '(h, m) := split_numbers (ev_startTime event) in
  let eventDate := setHours now h m in
  let triggerTime := add eventDate (Int (r_offsetMinutes r * 60000)) in
  match r_snoozedUntil r with
  | Some until => if isSnoozedOrPaused r then until else triggerTime
  | None => triggerTime
  end.

(** Lines 845-858: the instants [dndStart, dndEnd] of today's window; an
    overnight window is placed around [now]. *)
Definition dndBounds (now : Z) (w : DNDWindow) : option (num * num) :=
  if truthy (dnd_startTime w) && truthy (dnd_endTime w) then
    let '(sh, sm) := split_numbers (dnd_startTime w) in
    let '(eh, em) := split_numbers (dnd_endTime w) in
    if negb (existsb isNaN [sh; sm; eh; em]) then
      let dndStart := setHours now sh sm in
      let dndEnd := setHours now eh em in
      if lt dndEnd dndStart then
        if lt (Int now) dndEnd then Some (addDays dndStart (-1), dndEnd)
        else Some (dndStart, addDays dndEnd 1)
      else Some (dndStart, dndEnd)
    else None
  else None.

(** Lines 841-865: the shift out of the window. *)
Definition dndShift (now : Z) (dndWindows : list DNDWindow) (triggerTime : num)
  : num * option string :=
  match find (fun d => bool_decide (dnd_day d = todayDay now)) dndWindows with
  | Some dndWindow =>
      match dndBounds now dndWindow with
      | Some (dndStart, dndEnd) =>
          if ge triggerTime dndStart && le triggerTime dndEnd
          then (dndEnd, Some "DND-shifted")
          else (triggerTime, None)
      | None => (triggerTime, None)
      end
  | None => (triggerTime, None)
  end.

(** The callback of [.map]: [None] is the [null] that the next filter drops. *)
Definition resolveReminder (now : Z) (scheduleEvents : list ScheduleEvent)
    (dndWindows : list DNDWindow) (r : SmartReminder) : option ActiveReminder :=
  match find (fun e => String.eqb (ev_id e) (r_eventId r)) scheduleEvents with
  | None => None
  | Some event =>
      let triggerTime := baseTrigger now event r in
      if lt triggerTime (Int now) && negb (bool_decide (r_status r = Snoozed))
         && negb (bool_decide (r_status r = Paused))
      then None
      else
        let '(triggerTime, shiftedReason) := dndShift now dndWindows triggerTime in
        Some (mkActive r event triggerTime shiftedReason)
  end.

Definition byTriggerTime (a b : ActiveReminder) : num :=
  sub (ar_triggerTime a) (ar_triggerTime b).

Definition pauseInEffect (now : Z) (pauseUntil : option num) : bool :=
  match pauseUntil with
  | Some p => lt (Int now) p
  | None => false
  end.

Definition activeReminders (now : Z) (smartReminders : list SmartReminder)
    (scheduleEvents : list ScheduleEvent) (dndWindows : list DNDWindow)
    (pauseUntil : option num) : list ActiveReminder :=
  if pauseInEffect now pauseUntil then []
  else
    sort byTriggerTime
      (omap (resolveReminder now scheduleEvents dndWindows)
         (filter (fun r => isListed r = true) smartReminders)).

(** ** Moving an anchor ([CalendarPage.tsx], lines 882-956) *)

(** [newStartTime || eventToMove.startTime]: an absent or empty argument
    falls back to the anchor's own start. *)
Definition orElse (newStartTime : option string) (fallback : string) : string :=
  match newStartTime with
  | Some s => if truthy s then s else fallback
  | None => fallback
  end.

Definition hasId (eventId : string) (e : ScheduleEvent) : bool :=
  String.eqb (ev_id e) eventId.

(** The new value of [scheduleEvents]; an unknown id changes nothing. *)
Definition moveEvent (scheduleEvents : list ScheduleEvent) (eventId : string)
    (targetDay : Day) (newStartTime : option string) : list ScheduleEvent :=
  match find (hasId eventId) scheduleEvents with
  | None => scheduleEvents
  | Some eventToMove =>
      let startTime := orElse newStartTime (ev_startTime eventToMove) in
      let duration :=
        sub (timeToMinutes (ev_endTime eventToMove))
            (timeToMinutes (ev_startTime eventToMove)) in
      let endTime := minutesToTime (add (timeToMinutes startTime) duration) in
      map (fun e =>
             if hasId eventId e
             then mkEvent (ev_id e) targetDay (ev_title e) startTime endTime
             else e)
          scheduleEvents
  end.

Inductive ConflictKind : Type := conflict_dnd | conflict_overlap.

Record ConflictType : Type := mkConflict {
  c_type : ConflictKind;
  c_eventToMoveId : string;
  c_targetDay : Day;
  c_overlappingEventId : option string
}.

Inductive ConflictDecision : Type := shift_dnd | shift_overlap | keep_overlap.

(** The part of the page state that a drop or a resolution writes. *)
Record CalendarState : Type := mkState {
  st_scheduleEvents : list ScheduleEvent;
  st_conflict : option ConflictType
}.

(** [handleDrop]: the DND check first, then the first overlapping anchor of
    the target day, else the move. *)
Definition handleDrop (dndWindows : list DNDWindow) (st : CalendarState)
    (eventId : string) (day : Day) : CalendarState :=
  let scheduleEvents := st_scheduleEvents st in
  match find (hasId eventId) scheduleEvents with
  | None => st
  | Some eventToMove =>
      if bool_decide (ev_day eventToMove = day) then st
      else
        let overlapsWith (s e : string) :=
          doTimesOverlap (ev_startTime eventToMove) (ev_endTime eventToMove) s e in
        let dndHit :=
          match find (fun w => bool_decide (dnd_day w = day)) dndWindows with
          | Some dnd => overlapsWith (dnd_startTime dnd) (dnd_endTime dnd)
          | None => false
          end in
        if dndHit
        then mkState scheduleEvents (Some (mkConflict conflict_dnd eventId day None))
        else
          match find (fun ev => bool_decide (ev_day ev = day)
                                && negb (hasId eventId ev)
                                && overlapsWith (ev_startTime ev) (ev_endTime ev))
                  scheduleEvents with
          | Some overlappingEvent =>
              mkState scheduleEvents
                (Some (mkConflict conflict_overlap eventId day
                         (Some (ev_id overlappingEvent))))
          | None => mkState (moveEvent scheduleEvents eventId day None) (st_conflict st)
          end
  end.

(** [resolveConflict]: every decision goes through [moveEvent], and the
    pending conflict is cleared. *)
Definition resolveConflict (dndWindows : list DNDWindow) (st : CalendarState)
    (decision : ConflictDecision) : CalendarState :=
  match st_conflict st with
  | None => st
  | Some conflict =>
      let scheduleEvents := st_scheduleEvents st in
      let eventToMoveId := c_eventToMoveId conflict in
      let targetDay := c_targetDay conflict in
      let moved :=
        match decision with
        | keep_overlap => moveEvent scheduleEvents eventToMoveId targetDay None
        | shift_overlap =>
            match c_overlappingEventId conflict with
            | Some oid =>
                match find (hasId oid) scheduleEvents with
                | Some overlappingEvent =>
                    let newStartTime :=
                      minutesToTime (timeToMinutes (ev_endTime overlappingEvent)) in
                    moveEvent scheduleEvents eventToMoveId targetDay (Some newStartTime)
                | None => scheduleEvents
                end
            | None => scheduleEvents
            end
        | shift_dnd =>
            match find (fun w => bool_decide (dnd_day w = targetDay)) dndWindows with
            | Some dnd =>
                moveEvent scheduleEvents eventToMoveId targetDay (Some (dnd_endTime dnd))
            | None => scheduleEvents
            end
        end in
      mkState moved None
  end.

(** ** Reminder actions ([CalendarPage.tsx], lines 1002-1095) *)

Inductive ReminderAction : Type :=
| act_done
| act_snooze (snoozeMinutes : Z)
| act_ignore
| act_later
| act_revert_exploration
| act_pause
| act_toggle_lock.

(** Lines 1049-1064: the target of "Later today". *)
Definition laterTime (now : Z) (dndWindows : list DNDWindow) : Z :=
  let laterTime := now + 3 * 60 * 60 * 1000 in
  let laterTime :=
    match find (fun d => bool_decide (dnd_day d = todayDay now)) dndWindows with
    | Some dndWindow =>
        if truthy (dnd_startTime dndWindow) then
          match split_numbers (dnd_startTime dndWindow) with
          | (Int h, Int m) =>
              let dndStart := startOfDay now + h * msPerHour + m * msPerMinute in
              let dndStart := if dndStart <? now then dndStart + msPerDay else dndStart in
              let dndCap := dndStart - 15 * 60000 in
              if laterTime >? dndCap then dndCap else laterTime
          | _ => laterTime
          end
        else laterTime
    | None => laterTime
    end in
  if laterTime <=? now then now + 60 * 60 * 1000 else laterTime.

(** Line 1031-1033: 9:00 on the next day. *)
Definition tomorrowNine (now : Z) : Z := startOfDay (now + msPerDay) + 9 * msPerHour.

Definition updateReminder (now : Z) (dndWindows : list DNDWindow)
    (isNowLocked : bool) (action : ReminderAction) (r : SmartReminder) : SmartReminder :=
  match action with
  | act_snooze snoozeMinutes =>
      mkReminder (r_id r) (r_eventId r) (r_offsetMinutes r) (r_message r)
        (r_isLocked r) (r_isExploratory r) Snoozed
        (r_snoozeHistory r ++ [snoozeMinutes])
        (Some (Int (now + snoozeMinutes * 60000)))
        (r_successHistory r ++ [snoozed])
        (r_originalOffsetMinutes r) (Some now) (r_allowExploration r)
  | act_done =>
      mkReminder (r_id r) (r_eventId r) (r_offsetMinutes r) (r_message r)
        (r_isLocked r) (r_isExploratory r) Done (r_snoozeHistory r)
        (r_snoozedUntil r) (r_successHistory r ++ [success])
        (r_originalOffsetMinutes r) (Some now) (r_allowExploration r)
  | act_pause =>
      mkReminder (r_id r) (r_eventId r) (r_offsetMinutes r) (r_message r)
        (r_isLocked r) (r_isExploratory r) Paused (r_snoozeHistory r)
        (Some (Int (tomorrowNine now))) (r_successHistory r)
        (r_originalOffsetMinutes r) (r_lastInteraction r) (r_allowExploration r)
  | act_toggle_lock =>
      mkReminder (r_id r) (r_eventId r) (r_offsetMinutes r) (r_message r)
        isNowLocked (r_isExploratory r) (r_status r) (r_snoozeHistory r)
        (r_snoozedUntil r) (r_successHistory r)
        (r_originalOffsetMinutes r) (r_lastInteraction r) (Some (negb isNowLocked))
  | act_ignore =>
      mkReminder (r_id r) (r_eventId r) (r_offsetMinutes r) (r_message r)
        (r_isLocked r) (r_isExploratory r) Ignored (r_snoozeHistory r)
        (r_snoozedUntil r) (r_successHistory r ++ [ignored])
        (r_originalOffsetMinutes r) (Some now) (r_allowExploration r)
  | act_later =>
      mkReminder (r_id r) (r_eventId r) (r_offsetMinutes r) (r_message r)
        (r_isLocked r) (r_isExploratory r) Snoozed (r_snoozeHistory r)
        (Some (Int (laterTime now dndWindows)))
        (r_successHistory r ++ [snoozed])
        (r_originalOffsetMinutes r) (Some now) (r_allowExploration r)
  | act_revert_exploration =>
      match r_isExploratory r, r_originalOffsetMinutes r with
      | true, Some originalOffsetMinutes =>
          mkReminder (r_id r) (r_eventId r) originalOffsetMinutes (r_message r)
            (r_isLocked r) false Active (r_snoozeHistory r)
            None (r_successHistory r)
            None (r_lastInteraction r) (r_allowExploration r)
      | _, _ => r
      end
  end.

(** The new value of [smartReminders]; an unknown id changes nothing. *)
Definition handleReminderAction (now : Z) (dndWindows : list DNDWindow)
    (smartReminders : list SmartReminder) (id : string) (action : ReminderAction)
  : list SmartReminder :=
  match find (fun r => String.eqb (r_id r) id) smartReminders with
  | None => smartReminders
  | Some reminderToUpdate =>
      let isNowLocked := negb (r_isLocked reminderToUpdate) in
      map (fun r => if String.eqb (r_id r) id
                    then updateReminder now dndWindows isNowLocked action r
                    else r)
          smartReminders
  end.

(** ** The DND test of the theme engine ([determineOptimalTheme], priority 2) *)

(** The [timeToMinutes] of that file, without the guard for the empty
    string. *)
Definition theme_timeToMinutes (time : string) : num :=
  let '(hours, minutes) := split_numbers time in
  add (mul hours (Int 60)) minutes.

(** Whether the minute of the day [currentTimeInMinutes] is inside the
    window: an overnight window (end before start) holds the minutes from
    its start on and those before its end. *)
Definition dndWindowActive (currentTimeInMinutes : Z) (activeDndWindow : DNDWindow) : bool :=
  let dndStart := theme_timeToMinutes (dnd_startTime activeDndWindow) in
  let dndEnd := theme_timeToMinutes (dnd_endTime activeDndWindow) in
  if lt dndEnd dndStart
  then ge (Int currentTimeInMinutes) dndStart || lt (Int currentTimeInMinutes) dndEnd
  else ge (Int currentTimeInMinutes) dndStart && lt (Int currentTimeInMinutes) dndEnd.

(** ** Completion history and estimates ([utils/timeAnalytics]) *)

Inductive EnergyTag : Type := Creative | Tedious | Admin | Social | Errand.

#[global] Instance EnergyTag_eq_dec : EqDecision EnergyTag.
Proof. solve_decision. Defined.

Definition EnergyTag_code (t : EnergyTag) : nat :=
  match t with
  | Creative => 0 | Tedious => 1 | Admin => 2 | Social => 3 | Errand => 4
  end%nat.

Definition EnergyTag_decode (n : nat) : option EnergyTag :=
  match n with
  | 0 => Some Creative | 1 => Some Tedious | 2 => Some Admin
  | 3 => Some Social | 4 => Some Errand | _ => None
  end%nat.

#[global] Instance EnergyTag_countable : Countable EnergyTag.
Proof.
  apply (inj_countable EnergyTag_code EnergyTag_decode).
  intros []; reflexivity.
Defined.

(** [Object.values(EnergyTag)]. *)
Definition EnergyTag_values : list EnergyTag :=
  [Creative; Tedious; Admin; Social; Errand].

Inductive UserDifficulty : Type := Easier | Typical | Harder.

(** The numeric values of the enum: 0.8, 1.0 and 1.25. *)
Definition difficultyValue (d : UserDifficulty) : Q :=
  match d with
  | Easier => 4 # 5
  | Typical => 1
  | Harder => 5 # 4
  end.

(** [Omit<CompletionRecord, 'id'>]; [completedAt] is the instant of its ISO
    string, [subStepCount] the length of a sub-step list. *)
Record CompletionData : Type := mkData {
  actualDurationMinutes : Q;
  estimatedDurationMinutes : Q;
  energyTag : EnergyTag;
  completedAt : Z;
  subStepCount : Z;
  dayOfWeek : Z;
  difficulty : UserDifficulty
}.

Record CompletionRecord : Type := mkRecord {
  id : string;
  data :> CompletionData
}.

Inductive Confidence : Type := low | medium | high.

Record Estimate : Type := mkEstimate {
  p50 : Z;
  p90 : Z;
  confidence : Confidence
}.

Definition MAX_RECORDS_PER_TAG : nat := 100.

(** What [localStorage.getItem(HISTORY_KEY)] holds: nothing, a text that
    [JSON.parse] rejects, or an object with a list under some of the tags. *)
Inductive Stored : Type :=
| NoItem
| Unparsable
| Parsed (parsed : gmap EnergyTag (list CompletionRecord)).

(** [history[tag] || []]. *)
Definition recordsOf (history : gmap EnergyTag (list CompletionRecord))
    (tag : EnergyTag) : list CompletionRecord :=
  default [] (history !! tag).

(** The history read from the store: every tag is present, with the empty
    list where the store has none. *)
Definition getCompletionHistory (stored : Stored)
  : gmap EnergyTag (list CompletionRecord) :=
  match stored with
  | Parsed parsed =>
      foldl (fun fullHistory tag => <[tag := recordsOf parsed tag]> fullHistory)
            ∅ EnergyTag_values
  | NoItem | Unparsable =>
      foldl (fun acc tag => <[tag := []]> acc) ∅ EnergyTag_values
  end.

(** Newest first: [new Date(b.completedAt) - new Date(a.completedAt)]. *)
Definition byCompletedAtDesc (a b : CompletionRecord) : num :=
  Int (completedAt b - completedAt a).

(** Oldest first. *)
Definition byCompletedAtAsc (a b : CompletionRecord) : num :=
  Int (completedAt a - completedAt b).

(** [addRecordToHistory]: the returned history; it is also what is written
    back to the store.  [now] is [Date.now()]. *)
Definition addRecordToHistory (stored : Stored) (now : Z) (record : CompletionData)
  : gmap EnergyTag (list CompletionRecord) :=
  let history := getCompletionHistory stored in
  let newRecord := mkRecord ("cr-" +:+ String_ (Int now)) record in
  let recordsForTag := recordsOf history (energyTag record) ++ [newRecord] in
  if bool_decide (MAX_RECORDS_PER_TAG < length recordsForTag)%nat
  then <[energyTag record := take MAX_RECORDS_PER_TAG (sort byCompletedAtDesc recordsForTag)]> history
  else <[energyTag record := recordsForTag]> history.

Definition Qsum (l : list Q) : Q := foldl Qplus 0%Q l.

Section Estimate.

(** [Math.sqrt] has no exact counterpart on the rationals: the estimator
    is stated over any square-root function, and so is every result on it. *)
Variable Math_sqrt : Q -> Q.

(** [data.reduce((ewma, value) => alpha * value + (1 - alpha) * ewma, data[0])]:
    the fold starts from the first value and visits every value. *)
Definition calculateEWMA (data : list Q) (alpha : Q) : Q :=
  match data with
  | [] => 0%Q
  | first :: _ =>
      foldl (fun ewma value => alpha * value + (1 - alpha) * ewma)%Q first data
  end.

Definition adjusted (r : CompletionRecord) : Q :=
  (actualDurationMinutes r / difficultyValue (difficulty r))%Q.

(** [sensitivity] is [None] when the argument is left out (default 0.3). *)
Definition getPersonalizedEstimate
    (history : gmap EnergyTag (list CompletionRecord))
    (newChunk_energyTag : EnergyTag) (newChunk_subStepCount : Z)
    (sensitivity : option Q) : option Estimate :=
  let sensitivity := default (3 # 10) sensitivity in
  let relevantRecords := recordsOf history newChunk_energyTag in
  if bool_decide (length relevantRecords < 5)%nat then None
  else
    let adjustedDurations := map adjusted relevantRecords in
    let totalAdjustedMinutes := Qsum adjustedDurations in
    let totalSubSteps :=
      foldl (fun sum (r : CompletionRecord) => sum + subStepCount r) 0 relevantRecords in
    if totalSubSteps =? 0 then None
    else
      let avgMinutesPerSubStep := (totalAdjustedMinutes / inject_Z totalSubSteps)%Q in
      let complexityBasedEstimate :=
        (avgMinutesPerSubStep * inject_Z newChunk_subStepCount)%Q in
      let sortedRecords := sort byCompletedAtAsc relevantRecords in
      let recentPerformanceEstimate :=
        calculateEWMA (map adjusted sortedRecords) sensitivity in
      let blendedP50 :=
        Math_round (complexityBasedEstimate * (1 # 2)
                    + recentPerformanceEstimate * (1 # 2))%Q in
      let variance :=
        (Qsum (map (fun d => (d - inject_Z blendedP50) ^ 2) adjustedDurations)
         / inject_Z (Z.of_nat (length adjustedDurations)))%Q in
      let stdDev := Math_sqrt variance in
      let blendedP90 := Math_round (inject_Z blendedP50 + (13 # 10) * stdDev)%Q in
      let confidence :=
        if bool_decide (length relevantRecords < 10)%nat then low
        else if bool_decide (length relevantRecords < 25)%nat then medium
        else high in
      let finalP50 := Z.max 5 blendedP50 in
      let finalP90 := Z.max (finalP50 + 5) blendedP90 in
      Some (mkEstimate finalP50 finalP90 confidence).

End Estimate.

(** ** Vocabulary of the properties *)

(** A valid "HH:MM" string: two digits, a colon, two digits, with the hour
    at most 23 and the minute at most 59. *)
Definition validHHMM (t : string) : bool :=
  match t with
  | String a (String b (String sep (String c (String d EmptyString)))) =>
      match digit_of a, digit_of b, digit_of c, digit_of d with
      | Some ha, Some hb, Some ma, Some mb =>
          Ascii.eqb sep ":" && (10 * ha + hb <=? 23) && (10 * ma + mb <=? 59)
      | _, _, _, _ => false
      end
  | _ => false
  end.

(** The character of a decimal digit. *)
Definition digit_char (d : Z) : ascii := ascii_of_nat (48 + Z.to_nat d).

(** The string "ab:cd" of four digits. *)
Definition hhmm (ha hb ma mb : Z) : string :=
  String (digit_char ha) (String (digit_char hb)
    (String ":" (String (digit_char ma) (String (digit_char mb) EmptyString)))).

Definition digits : list Z := [0; 1; 2; 3; 4; 5; 6; 7; 8; 9].

(** The round trip through [timeToMinutes] and [minutesToTime], as a test. *)
Definition roundTrips (t : string) : bool :=
  String.eqb (minutesToTime (timeToMinutes t)) t.

(** The integers from 0 up to [n - 1]. *)
Definition upto (n : nat) : list Z := map Z.of_nat (seq 0 n).

(** The duration of an anchor in minutes: end time minus start time. *)
Definition duration (e : ScheduleEvent) : num :=
  sub (timeToMinutes (ev_endTime e)) (timeToMinutes (ev_startTime e)).

(** An anchor with valid wall-clock times. *)
Definition validTimes (e : ScheduleEvent) : bool :=
  validHHMM (ev_startTime e) && validHHMM (ev_endTime e).

(** The anchor [e], started at [startTime], ends within the day: the start
    plus the duration of [e] is a minute from 0 to 1439. *)
Definition endsWithinDay (startTime : string) (e : ScheduleEvent) : bool :=
  match add (timeToMinutes startTime) (duration e) with
  | Int k => (0 <=? k) && (k <? 1440)
  | NaN => false
  end.

(** A start time handed to [moveEvent], when there is one, is valid. *)
Definition validStart (newStartTime : option string) : bool :=
  match newStartTime with
  | Some s => validHHMM s
  | None => true
  end.

(** Today's date at the start time of today's DND window, when there is such
    a window and its start parses. *)
Definition dndStartToday (now : Z) (dndWindows : list DNDWindow) : option Z :=
  match find (fun d => bool_decide (dnd_day d = todayDay now)) dndWindows with
  | Some w =>
      if truthy (dnd_startTime w) then
        match split_numbers (dnd_startTime w) with
        | (Int h, Int m) => Some (startOfDay now + h * msPerHour + m * msPerMinute)
        | _ => None
        end
      else None
  | None => None
  end.

(** The target of "Later today" in the words of the specification: three
    hours from now, capped to 15 minutes before the window start [dndStart]
    when that is earlier, and one hour from now once the capped time has
    passed. *)
Definition laterTime_stated (now : Z) (dndStart : option Z) : Z :=
  let threeHours := now + 3 * msPerHour in
  let capped :=
    match dndStart with
    | Some s => Z.min threeHours (s - 15 * msPerMinute)
    | None => threeHours
    end in
  if capped <=? now then now + msPerHour else capped.

(** The next occurrence of a start time: today's while it has not passed,
    otherwise the same wall-clock time tomorrow. *)
Definition nextOccurrence (now s : Z) : Z :=
  if s <? now then s + msPerDay else s.

(** What "later" writes into a reminder, for a target instant. *)
Definition snoozedLater (now target : Z) (r : SmartReminder) : SmartReminder :=
  mkReminder (r_id r) (r_eventId r) (r_offsetMinutes r) (r_message r)
    (r_isLocked r) (r_isExploratory r) Snoozed (r_snoozeHistory r)
    (Some (Int target)) (r_successHistory r ++ [snoozed])
    (r_originalOffsetMinutes r) (Some now) (r_allowExploration r).

(** Containment in a DND window by minutes of the day, in the words of the
    specification (and as [determineOptimalTheme] tests it): half-open, an
    overnight window ([endMin < startMin]) holding the times from its start
    to midnight and from midnight to its end. *)
Definition insideDND (startMin endMin timeMin : Z) : bool :=
  if endMin <? startMin
  then (startMin <=? timeMin) || (timeMin <? endMin)
  else (startMin <=? timeMin) && (timeMin <? endMin).

(** [getHours() * 60 + getMinutes()] of an instant. *)
Definition minuteOfDay (d : Z) : Z := d mod msPerDay / msPerMinute.

(** The sub-step counts of a list of records, summed. *)
Definition sumSubSteps (rs : list CompletionRecord) : Z :=
  foldr (fun r acc => subStepCount (data r) + acc) 0 rs.

(** A stand-in for [Math.sqrt] on the rationals: the integer square root of
    the floor. *)
Definition sqrt_floor (q : Q) : Q := inject_Z (Z.sqrt (Qfloor q)).

(** The Creative scenario of the specification: six records with the
    durations 50, 55, 60, 58, 62 and 57 minutes, each at difficulty 1.0 with
    three sub-steps. *)
Definition scenarioDurations : list Z := [50; 55; 60; 58; 62; 57].

(** A record of the scenario with the given duration. *)
Definition scenarioRecord (r : CompletionRecord) (minutes : Z) : Prop :=
  (actualDurationMinutes r == inject_Z minutes)%Q
  /\ difficulty r = Typical /\ subStepCount r = 3.

(** Records in the order of their completion times. *)
Definition chronological (rs : list CompletionRecord) : Prop :=
  StronglySorted (fun a b : CompletionRecord => completedAt a <= completedAt b) rs.

(** ** Sample data *)

Definition anchorA : ScheduleEvent := mkEvent "a" Monday "Gym" "22:00" "23:30".
Definition anchorB : ScheduleEvent := mkEvent "b" Tuesday "Call" "21:30" "23:00".
Definition anchorC : ScheduleEvent := mkEvent "c" Tuesday "Walk" "09:00" "10:00".
Definition anchorD : ScheduleEvent := mkEvent "d" Monday "Study" "09:30" "10:30".

(** Day 4 of the time line is a Monday. *)
Definition monday (h m : Z) : Z := 4 * msPerDay + h * msPerHour + m * msPerMinute.

Definition reminderOn (id eventId : string) (offsetMinutes : Z)
    (status : ReminderStatus) (snoozedUntil : option num) : SmartReminder :=
  mkReminder id eventId offsetMinutes "Get ready" false false status []
    snoozedUntil [] None None None.

Definition creativeRecord (minutes at_ : Z) : CompletionRecord :=
  mkRecord "cr-0" (mkData (inject_Z minutes) 60 Creative at_ 3 1 Typical).

(** Six Creative records in chronological order. *)
Definition sixRecords : list CompletionRecord :=
  [creativeRecord 50 1000; creativeRecord 55 2000; creativeRecord 60 3000;
   creativeRecord 58 4000; creativeRecord 62 5000; creativeRecord 57 6000].

Definition sixCreative : gmap EnergyTag (list CompletionRecord) :=
  {[ Creative := sixRecords ]}.

(** A store whose Creative category is at the cap, oldest record first. *)
Definition fullStore : Stored :=
  Parsed {[ Creative := map (fun k => creativeRecord 30 (1000 * k)) (upto 100) ]}.

(** ** Further vocabulary *)

(** The anchors that do not carry the id [eventId]. *)
Definition others (eventId : string) (events : list ScheduleEvent) : list ScheduleEvent :=
  List.filter (fun e => negb (hasId eventId e)) events.

(** The reminders that do not carry the id [id]. *)
Definition otherReminders (id : string) (rs : list SmartReminder) : list SmartReminder :=
  List.filter (fun r => negb (String.eqb (r_id r) id)) rs.


(** The actions that close a reminder for the day: done and ignore. *)
Definition closes (action : ReminderAction) : bool :=
  match action with
  | act_done | act_ignore => true
  | _ => false
  end.

(** The trigger time of a list entry as an integer, 0 for an invalid date. *)
Definition triggerKey (a : ActiveReminder) : Z :=
  match ar_triggerTime a with
  | Int t => t
  | NaN => 0
  end.

(** The comparator of the active list on entries with valid trigger times. *)
Definition byTriggerKey (a b : ActiveReminder) : num :=
  Int (triggerKey a - triggerKey b).

(** A run of appends, each one saved to the store before the next: the
    store after the records [appends] (each with its [Date.now()]) have gone
    through [addRecordToHistory]. *)
Definition appendAll (stored : Stored) (appends : list (Z * CompletionData)) : Stored :=
  foldl (fun s '(now, record) => Parsed (addRecordToHistory s now record))
        stored appends.

(** Every category of a store within the retention cap. *)
Definition withinCap (stored : Stored) : Prop :=
  forall tag, (length (recordsOf (getCompletionHistory stored) tag) <= MAX_RECORDS_PER_TAG)%nat.

(** ** Habit streaks ([utils/habitAnalytics.ts]) *)

(** [HabitStats]; a completion timestamp is the instant of its ISO string. *)
Record HabitStats : Type := mkStats {
  completionTimestamps : list Z;
  currentStreak : Z;
  longestStreak : Z
}.

(** What [localStorage.getItem(HABIT_STATS_KEY)] holds: nothing, a text that
    [JSON.parse] rejects, or the stats by habit id. *)
Inductive StoredStats : Type :=
| NoStats
| UnparsableStats
| ParsedStats (stats : gmap string HabitStats).

Definition getHabitStats (stored : StoredStats) : gmap string HabitStats :=
  match stored with
  | ParsedStats stats => stats
  | NoStats | UnparsableStats => ∅
  end.

(** [Math.abs] on a rational. *)
Definition Math_abs (x : Q) : Q := Qabs x.

(** Both dates are taken to their local midnight; the days between them are
    the rounded quotient of the difference by one day. *)
Definition areDatesConsecutive (date1 date2 : Z) : bool :=
  let d1 := startOfDay date1 in
  let d2 := startOfDay date2 in
  let oneDay := 24 * 60 * 60 * 1000 in
  let diffDays := Math_round (Math_abs (inject_Z (d1 - d2) / inject_Z oneDay)) in
  diffDays =? 1.

(** The same year, month and day of the month: the same local calendar day,
    that is the same local midnight. *)
Definition areDatesSameDay (date1 date2 : Z) : bool :=
  startOfDay date1 =? startOfDay date2.

Record CompletionOutcome : Type := mkOutcome {
  newStreak : Z;
  isNewLongest : bool
}.

(** [recordHabitCompletion]: the outcome and the store afterwards; [now] is
    [new Date()].  On the early return nothing is saved. *)
Definition recordHabitCompletion (stored : StoredStats) (now : Z) (habitId : string)
  : CompletionOutcome * StoredStats :=
  let allStats := getHabitStats stored in
  let habitStats := default (mkStats [] 0 0) (allStats !! habitId) in
  let lastCompletion := last (completionTimestamps habitStats) in
  let sameDay :=
    match lastCompletion with
    | Some lastDate => areDatesSameDay now lastDate
    | None => false
    end in
  if sameDay then (mkOutcome (currentStreak habitStats) false, stored)
  else
    let pushed := completionTimestamps habitStats ++ [now] in
    let timestamps :=
      if bool_decide (100 < length pushed)%nat then drop 1 pushed else pushed in
    let consecutive :=
      match lastCompletion with
      | Some lastDate => areDatesConsecutive now lastDate
      | None => false
      end in
    let current := if consecutive then currentStreak habitStats + 1 else 1 in
    let isNew := longestStreak habitStats <? current in
    let longest := if isNew then current else longestStreak habitStats in
    (mkOutcome current isNew,
     ParsedStats (<[habitId := mkStats timestamps current longest]> allStats)).

(** A run of completions, each with its time and habit id. *)
Definition recordAll (stored : StoredStats) (completions : list (Z * string)) : StoredStats :=
  foldl (fun s '(now, habitId) => (recordHabitCompletion s now habitId).2)
        stored completions.

(** The day number of an instant. *)
Definition dayOf (d : Z) : Z := d / msPerDay.

(** The stats a habit is stored with keep a streak of at least one, a
    longest streak no shorter than the current one, and at most 100
    timestamps, the last of which is there. *)
Definition statsOK (s : HabitStats) : Prop :=
  1 <= currentStreak s <= longestStreak s
  /\ (0 < length (completionTimestamps s) <= 100)%nat.

Definition statsStoreOK (stored : StoredStats) : Prop :=
  forall habitId s, getHabitStats stored !! habitId = Some s -> statsOK s.

(** Instants on consecutive calendar days, in order. *)
Fixpoint onConsecutiveDays (first : Z) (rest : list Z) : Prop :=
  match rest with
  | [] => True
  | next :: rest' => dayOf next = dayOf first + 1 /\ onConsecutiveDays next rest'
  end.

(** ** Habit suggestions ([utils/habitStacking]) *)

Inductive HabitCategory : Type := Physical | Cognitive | Transitional.

Inductive HabitEnergyRequirement : Type := Low | Medium.

(** [MicroHabit]; [h_energyTags] is [optimalContexts.energyTags], [None]
    when the field is left out. *)
Record MicroHabit : Type := mkHabit {
  h_id : string;
  h_name : string;
  h_description : string;
  h_category : HabitCategory;
  h_durationMinutes : Z;
  h_energyRequirement : HabitEnergyRequirement;
  h_energyTags : option (list EnergyTag)
}.

Definition habitDatabase : list MicroHabit := [
  mkHabit "habit-stretch-neck" "Mindful Neck Rolls"
    "Gently roll your neck from side to side to release tension from focused work."
    Physical 1 Low (Some [Tedious; Admin; Creative]);
  mkHabit "habit-hydrate" "Sip of Water"
    "Take a moment to hydrate. Proper hydration is key for focus and energy."
    Physical 1 Low None;
  mkHabit "habit-stand-walk" "Quick Stand & Walk"
    "Stand up, stretch your legs, and walk around your room for a minute to get blood flowing."
    Physical 2 Medium (Some [Tedious; Admin]);
  mkHabit "habit-deep-breath" "Box Breathing"
    "Inhale for 4s, hold for 4s, exhale for 4s, hold for 4s. Repeat 3 times to reset your nervous system."
    Cognitive 1 Low (Some [Creative; Social]);
  mkHabit "habit-gratitude" "One Small Win"
    "Take 30 seconds to acknowledge one small thing you did well in that last chunk."
    Cognitive 1 Low None;
  mkHabit "habit-next-step" "Plan Next Micro-Step"
    "Jot down the very next physical action for your upcoming task. Make it tiny!"
    Cognitive 2 Medium (Some [Creative; Admin]);
  mkHabit "habit-tidy-space" "2-Minute Tidy"
    "Reset your workspace. A clear space leads to a clear mind."
    Transitional 2 Medium None;
  mkHabit "habit-posture-check" "Posture Reset"
    "Sit or stand up straight, roll your shoulders back, and align your head over your spine."
    Transitional 1 Low (Some [Tedious; Admin])
].

(** [habit.id !== lastSuggestedHabitId]; [null] differs from every id. *)
Definition isNotLastSuggested (lastSuggestedHabitId : option string) (habit : MicroHabit) : bool :=
  match lastSuggestedHabitId with
  | Some last => negb (String.eqb (h_id habit) last)
  | None => true
  end.

Definition hasNoContext (habit : MicroHabit) : bool :=
  match h_energyTags habit with
  | None | Some [] => true
  | Some (_ :: _) => false
  end.

Definition matchesContext (completedEnergyTag : EnergyTag) (habit : MicroHabit) : bool :=
  match h_energyTags habit with
  | Some tags => bool_decide (completedEnergyTag ∈ tags)
  | None => false
  end.

(** [getHabitSuggestion] over a database: the suggestion and the new value
    of [lastSuggestedHabitId].  [random] is the value of [Math.random()]; an
    index outside the list (no [random] in [0, 1) gives one) is [None]. *)
Definition getHabitSuggestionFrom (database : list MicroHabit)
    (lastSuggestedHabitId : option string) (random : Q) (completedEnergyTag : EnergyTag)
  : option MicroHabit * option string :=
  let suitableHabits :=
    List.filter (fun habit =>
                   isNotLastSuggested lastSuggestedHabitId habit
                   && (hasNoContext habit || matchesContext completedEnergyTag habit))
                database in
  let suitableHabits :=
    match suitableHabits with
    | [] => List.filter (isNotLastSuggested lastSuggestedHabitId) database
    | _ => suitableHabits
    end in
  match suitableHabits with
  | [] => (head database, lastSuggestedHabitId)
  | _ =>
      let randomIndex :=
        Qfloor (random * inject_Z (Z.of_nat (length suitableHabits))) in
      match (if 0 <=? randomIndex then suitableHabits !! Z.to_nat randomIndex else None) with
      | Some suggestion => (Some suggestion, Some (h_id suggestion))
      | None => (None, lastSuggestedHabitId)
      end
  end.

Definition getHabitSuggestion : option string -> Q -> EnergyTag -> option MicroHabit * option string :=
  getHabitSuggestionFrom habitDatabase.

(** A habit fits a completed tag when it has no context or lists the tag. *)
Definition fitsContext (completedEnergyTag : EnergyTag) (habit : MicroHabit) : bool :=
  hasNoContext habit || matchesContext completedEnergyTag habit.

(** ** DND settings ([DndSettingsEditor], [CalendarPage.tsx] lines 614-643) *)

Inductive DndPart : Type := part_startTime | part_endTime.

(** [{ ...w, [part]: value }]. *)
Definition setPart (w : DNDWindow) (part : DndPart) (value : string) : DNDWindow :=
  match part with
  | part_startTime => mkDND (dnd_day w) value (dnd_endTime w)
  | part_endTime => mkDND (dnd_day w) (dnd_startTime w) value
  end.

(** The new value of [dndWindows]: the first window of the day gets the new
    value; without a window for the day nothing changes. *)
Definition handleDndChange (dndWindows : list DNDWindow) (day : Day)
    (part : DndPart) (value : string) : list DNDWindow :=
  match list_find (fun w => dnd_day w = day) dndWindows with
  | Some (index, w) => <[index := setPart w part value]> dndWindows
  | None => dndWindows
  end.

(** [find(Monday) || dndWindows[0] || { startTime: '23:00', endTime: '07:00' }]:
    the times that "apply to all" spreads. *)
Definition representativeTimes (dndWindows : list DNDWindow) : string * string :=
  match find (fun w => bool_decide (dnd_day w = Monday)) dndWindows with
  | Some w => (dnd_startTime w, dnd_endTime w)
  | None =>
      match dndWindows with
      | w :: _ => (dnd_startTime w, dnd_endTime w)
      | [] => ("23:00", "07:00")
      end
  end.

Definition handleApplyToAll (dndWindows : list DNDWindow) : list DNDWindow :=
  let representativeWindow := representativeTimes dndWindows in
  map (fun day => mkDND day representativeWindow.1 representativeWindow.2) DAYS_OF_WEEK.

(** ** Onboarding time blocks ([OnboardingFlow], lines 353-376) *)

Record TimeBlock : Type := mkBlock {
  b_id : Z;
  b_startTime : string;
  b_endTime : string;
  b_days : list Day
}.

(** A field of a block with its new value. *)
Inductive BlockUpdate : Type :=
| set_startTime (value : string)
| set_endTime (value : string)
| set_days (value : list Day).

(** [updateBlock]: a start time at or after the end time clears the end. *)
Definition updateBlock (currentBlocks : list TimeBlock) (id : Z) (update : BlockUpdate)
  : list TimeBlock :=
  map (fun b =>
         if b_id b =? id then
           match update with
           | set_startTime value =>
               if truthy (b_endTime b)
                  && ge (timeToMinutes value) (timeToMinutes (b_endTime b))
               then mkBlock (b_id b) value "" (b_days b)
               else mkBlock (b_id b) value (b_endTime b) (b_days b)
           | set_endTime value => mkBlock (b_id b) (b_startTime b) value (b_days b)
           | set_days value => mkBlock (b_id b) (b_startTime b) (b_endTime b) value
           end
         else b)
      currentBlocks.

(** [toggleDay]: a day of the block is taken out, another day is added at
    the end. *)
Definition toggleDay (currentBlocks : list TimeBlock) (id : Z) (day : Day) : list TimeBlock :=
  map (fun b =>
         if b_id b =? id then
           let newDays :=
             if bool_decide (day ∈ b_days b)
             then List.filter (fun d => negb (bool_decide (d = day))) (b_days b)
             else b_days b ++ [day] in
           mkBlock (b_id b) (b_startTime b) (b_endTime b) newDays
         else b)
      currentBlocks.

(** ** The theme engine ([determineOptimalTheme]) *)

Inductive ThemeName : Type := Theme_Focus | Theme_Creative | Theme_Recovery | Theme_Evening.

Inductive ContextTag : Type :=
| Rushed | Relaxed | HighEnergy | LowEnergy | Work | School | Personal
| Prep | Travel | Recovery.

#[global] Instance ContextTag_eq_dec : EqDecision ContextTag.
Proof. solve_decision. Defined.

(** The fields of the active chunk that the engine reads. *)
Record ActiveChunk : Type := mkChunk {
  chunk_isComplete : bool;
  chunk_energyTag : EnergyTag
}.

(** [event.contextTags?.includes(tag)] over the current events, each given
    by its [contextTags] ([None] when the field is left out). *)
Definition someEventTagged (currentEvents : list (option (list ContextTag)))
    (tags : list ContextTag) : bool :=
  existsb (fun contextTags =>
             match contextTags with
             | Some l => existsb (fun tag => bool_decide (tag ∈ l)) tags
             | None => false
             end)
          currentEvents.

Definition getHours (d : Z) : Z := d mod msPerDay / msPerHour.
Definition getMinutes (d : Z) : Z := d mod msPerHour / msPerMinute.

(** The day names indexed by [getDay()], Sunday first. *)
Definition currentDayOfWeek (currentTime : Z) : Day :=
  default Sunday
    ([Sunday; Monday; Tuesday; Wednesday; Thursday; Friday; Saturday]
       !! Z.to_nat (getDay currentTime)).

(** Priority 4 and the default: the theme of the current anchors. *)
Definition themeOfEvents (currentEvents : list (option (list ContextTag))) : ThemeName :=
  if bool_decide (0 < length currentEvents)%nat then
    if someEventTagged currentEvents [Rushed] then Theme_Focus
    else if someEventTagged currentEvents [HighEnergy; Work] then Theme_Focus
    else if someEventTagged currentEvents [Relaxed] then Theme_Recovery
    else if someEventTagged currentEvents [LowEnergy; Recovery] then Theme_Recovery
    else Theme_Creative
  else Theme_Creative.

Definition determineOptimalTheme (activeChunk : option ActiveChunk)
    (currentEvents : list (option (list ContextTag))) (currentTime : Z)
    (dndWindows : list DNDWindow) : ThemeName :=
  let currentHour := getHours currentTime in
  let currentTimeInMinutes := getHours currentTime * 60 + getMinutes currentTime in
  if (19 <=? currentHour) || (currentHour <? 5) then Theme_Evening
  else if match find (fun w => bool_decide (dnd_day w = currentDayOfWeek currentTime))
                  dndWindows with
          | Some activeDndWindow => dndWindowActive currentTimeInMinutes activeDndWindow
          | None => false
          end
  then Theme_Focus
  else
    match activeChunk with
    | Some chunk =>
        if negb (chunk_isComplete chunk) then
          match chunk_energyTag chunk with
          | Tedious | Admin => Theme_Focus
          | Creative | Social => Theme_Creative
          | Errand => Theme_Recovery
          end
        else themeOfEvents currentEvents
    | None => themeOfEvents currentEvents
    end.

(** ** Toast texts ([CalendarPage.tsx], lines 26-34) *)

(** White space that [parseInt] skips, among the characters of a byte
    string. *)
Definition isBlank (c : ascii) : bool :=
  let n := nat_of_ascii c in
  ((9 <=? n) && (n <=? 13))%nat || (n =? 32)%nat.

Fixpoint skipBlanks (s : string) : string :=
  match s with
  | String c s' => if isBlank c then skipBlanks s' else s
  | EmptyString => s
  end.

(** The value of the leading run of digits; [None] without a digit. *)
Fixpoint leadingDigits (acc : option Z) (s : string) : option Z :=
  match s with
  | String c s' =>
      match digit_of c with
      | Some d => leadingDigits (Some (10 * default 0 acc + d)) s'
      | None => acc
      end
  | EmptyString => acc
  end.

(** [parseInt(s, 10)]: blanks, an optional sign, then the digits up to the
    first other character. *)
Definition parseInt10 (s : string) : num :=
  match skipBlanks s with
  | String "-" s' => of_option (Z.opp <$> leadingDigits None s')
  | String "+" s' => of_option (leadingDigits None s')
  | s' => of_option (leadingDigits None s')
  end.

(** [hour >= 12 ? 'PM' : 'AM'], then [hour % 12], with 0 (and NaN) shown as
    12; the minutes are left out when they are "00".  A time without a colon
    has [undefined] for its minutes. *)
Definition formatTimeForToast (time : string) : string :=
  match time with
  | EmptyString => ""
  | _ =>
      let pieces := split_colon time in
      let hourStr := default "" (head pieces) in
      let minuteStr :=
        match pieces with
        | _ :: m :: _ => m
        | _ => "undefined"
        end in
      let hour := parseInt10 hourStr in
      let ampm := if ge hour (Int 12) then "PM" else "AM" in
      let hour := rem hour (Int 12) in
      let hour := match hour with
                  | Int 0 | NaN => Int 12
                  | _ => hour
                  end in
      String_ hour +:+ (if String.eqb minuteStr "00" then "" else ":" +:+ minuteStr)
      +:+ ampm
  end.

(** The hour of a 12-hour clock for an hour of the day. *)
Definition hour12 (h : Z) : Z := if h mod 12 =? 0 then 12 else h mod 12.

(** The toast text of minute [k] of the day: the hour on a 12-hour clock,
    the minutes unless they are zero, and AM before noon, PM from noon on. *)
Definition toastOfMinute (k : Z) : string :=
  String_ (Int (hour12 (k / 60)))
  +:+ (if k mod 60 =? 0 then "" else ":" +:+ padStart2 (String_ (Int (k mod 60))))
  +:+ (if k <? 720 then "AM" else "PM").

(** * Properties *)

(** ** The helpers on sample values *)

Example timeToMinutes_0930 : timeToMinutes "09:30" = Int 570.
Proof. reflexivity. Qed.

Example minutesToTime_570 : minutesToTime (Int 570) = "09:30".
Proof. reflexivity. Qed.

Example minutesToTime_past_midnight : minutesToTime (Int 1470) = "00:30".
Proof. reflexivity. Qed.

Example timeToMinutes_no_colon : timeToMinutes "0930" = NaN.
Proof. reflexivity. Qed.

Example todayDay_monday : todayDay (monday 3 0) = Monday.
Proof. reflexivity. Qed.

(** ** Numbers *)

Lemma lt_Int_iff (a b : num) :
  lt a b = true <-> exists x y, a = Int x /\ b = Int y /\ x < y.
Proof.
  split.
  - destruct a as [|x], b as [|y]; simpl; try discriminate.
    intros H. exists x, y. repeat split. lia.
  - intros (x & y & -> & -> & H). simpl. lia.
Qed.

Lemma gt_lt (a b : num) : gt a b = lt b a.
Proof. reflexivity. Qed.

Lemma lt_irrefl (a : num) : lt a a = false.
Proof. destruct a; simpl; [reflexivity | lia]. Qed.

(** ** Wall-clock helpers *)

Lemma doTimesOverlap_touching (a b c d : string) :
  timeToMinutes b = timeToMinutes c -> doTimesOverlap a b c d = false.
Proof.
  intros H. unfold doTimesOverlap. cbv zeta. rewrite gt_lt, H, lt_irrefl.
  apply andb_false_r.
Qed.

(** C8. [doTimesOverlap a b c d] holds exactly when all four times are numbers
    with [a < d] and [b > c] in minutes (half-open intervals: [09:00,10:00)
    and [10:00,11:00) do not overlap), and it is symmetric in the two
    intervals. *)
Theorem doTimesOverlap_half_open_symmetric (a b c d : string) :
  (doTimesOverlap a b c d = true <->
     exists ma mb mc md,
       timeToMinutes a = Int ma /\ timeToMinutes b = Int mb /\
       timeToMinutes c = Int mc /\ timeToMinutes d = Int md /\
       ma < md /\ mb > mc)
  /\ doTimesOverlap a b c d = doTimesOverlap c d a b
  /\ doTimesOverlap "09:00" "10:00" "10:00" "11:00" = false.
Proof.
  split; [|split].
  - unfold doTimesOverlap. cbv zeta. rewrite andb_true_iff, gt_lt, !lt_Int_iff.
    split.
    + intros [(ma & md & Ha & Hd & Hlt) (mc & mb & Hc & Hb & Hgt)].
      exists ma, mb, mc, md. repeat split; try assumption. lia.
    + intros (ma & mb & mc & md & Ha & Hb & Hc & Hd & Hlt & Hgt). split.
      * exists ma, md. auto.
      * exists mc, mb. repeat split; try assumption. lia.
  - unfold doTimesOverlap. cbv zeta. rewrite !gt_lt. apply andb_comm.
  - reflexivity.
Qed.

Lemma doTimesOverlap_half_open_symmetric_witness :
  doTimesOverlap "09:00" "10:30" "10:00" "11:00" = true.
Proof.
  apply (proj1 (doTimesOverlap_half_open_symmetric "09:00" "10:30" "10:00" "11:00")).
  exists 540, 630, 600, 660. repeat split; try reflexivity; lia.
Defined.

Lemma digit_of_char (c : ascii) (d : Z) :
  digit_of c = Some d -> c = digit_char d /\ In d digits.
Proof.
  destruct c as [[] [] [] [] [] [] [] []]; vm_compute; intros H;
    try discriminate H; injection H as <-; vm_compute; tauto.
Qed.

Lemma validHHMM_shape (t : string) :
  validHHMM t = true ->
  exists ha hb ma mb,
    t = hhmm ha hb ma mb /\ In ha digits /\ In hb digits /\
    In ma digits /\ In mb digits /\ 10 * ha + hb <= 23 /\ 10 * ma + mb <= 59.
Proof.
  destruct t as [|a [|b [|sep [|c [|d [|]]]]]]; simpl; try discriminate.
  destruct (digit_of a) as [ha|] eqn:Ha; [|discriminate].
  destruct (digit_of b) as [hb|] eqn:Hb; [|discriminate].
  destruct (digit_of c) as [ma|] eqn:Hc; [|discriminate].
  destruct (digit_of d) as [mb|] eqn:Hd; [|discriminate].
  rewrite !andb_true_iff, Ascii.eqb_eq, !Z.leb_le. intros [[-> Hh] Hm].
  apply digit_of_char in Ha as [-> ?], Hb as [-> ?], Hc as [-> ?], Hd as [-> ?].
  exists ha, hb, ma, mb. unfold hhmm. auto 10.
Qed.

Lemma roundTrips_all :
  forallb (fun ha => forallb (fun hb => forallb (fun ma => forallb (fun mb =>
     if (10 * ha + hb <=? 23) && (10 * ma + mb <=? 59)
     then roundTrips (hhmm ha hb ma mb) else true)
   digits) digits) digits) digits = true.
Proof. vm_compute. reflexivity. Qed.

Lemma roundTrips_valid (t : string) :
  validHHMM t = true -> minutesToTime (timeToMinutes t) = t.
Proof.
  intros (ha & hb & ma & mb & -> & Ha & Hb & Hc & Hd & Hh & Hm)%validHHMM_shape.
  pose proof roundTrips_all as H.
  rewrite forallb_forall in H. specialize (H _ Ha).
  rewrite forallb_forall in H. specialize (H _ Hb).
  rewrite forallb_forall in H. specialize (H _ Hc).
  rewrite forallb_forall in H. specialize (H _ Hd).
  apply Z.leb_le in Hh, Hm. rewrite Hh, Hm in H. simpl in H.
  apply String.eqb_eq, H.
Qed.

Lemma minutesToTime_wrap (m : Z) :
  0 <= m -> minutesToTime (Int m) = minutesToTime (Int (m mod 1440)).
Proof.
  intros Hm. unfold minutesToTime, rem, floor_div. simpl.
  assert (H1 : Z.rem (m / 60) 24 = Z.rem (m mod 1440 / 60) 24).
  { rewrite !Z.rem_mod_nonneg by (try apply Z.div_pos; try apply Z.mod_pos_bound; lia).
    Z.div_mod_to_equations. lia. }
  assert (H2 : Z.rem m 60 = Z.rem (m mod 1440) 60).
  { rewrite !Z.rem_mod_nonneg by (try apply Z.mod_pos_bound; lia).
    Z.div_mod_to_equations. lia. }
  rewrite H1, H2. reflexivity.
Qed.

Lemma digits_bound (d : Z) : In d digits -> 0 <= d <= 9.
Proof. unfold digits. simpl. lia. Qed.

Lemma timeToMinutes_valid (t : string) :
  validHHMM t = true -> exists k, timeToMinutes t = Int k /\ 0 <= k < 1440.
Proof.
  intros (ha & hb & ma & mb & -> & Ha & Hb & Hc & Hd & Hh & Hm)%validHHMM_shape.
  exists (60 * (10 * ha + hb) + (10 * ma + mb)).
  assert (forallb (fun ha => forallb (fun hb => forallb (fun ma => forallb (fun mb =>
     match timeToMinutes (hhmm ha hb ma mb) with
     | Int k => k =? 60 * (10 * ha + hb) + (10 * ma + mb)
     | NaN => false
     end) digits) digits) digits) digits = true) as H by (vm_compute; reflexivity).
  rewrite forallb_forall in H. specialize (H _ Ha).
  rewrite forallb_forall in H. specialize (H _ Hb).
  rewrite forallb_forall in H. specialize (H _ Hc).
  rewrite forallb_forall in H. specialize (H _ Hd).
  destruct (timeToMinutes _) as [|k]; [discriminate|].
  apply Z.eqb_eq in H as ->. split; [reflexivity|].
  apply digits_bound in Ha, Hb, Hc, Hd. lia.
Qed.

Lemma upto_In (n : nat) (k : Z) : 0 <= k < Z.of_nat n -> In k (upto n).
Proof.
  intros Hk. unfold upto. apply in_map_iff. exists (Z.to_nat k).
  split; [lia|]. apply in_seq. lia.
Qed.

Lemma minutesToTime_valid (k : Z) :
  0 <= k < 1440 ->
  validHHMM (minutesToTime (Int k)) = true
  /\ timeToMinutes (minutesToTime (Int k)) = Int k.
Proof.
  intros Hk.
  assert (forallb (fun h => forallb (fun m =>
     validHHMM (minutesToTime (Int (60 * h + m))) &&
     match timeToMinutes (minutesToTime (Int (60 * h + m))) with
     | Int k' => k' =? 60 * h + m
     | NaN => false
     end) (upto 60)) (upto 24) = true) as H by (vm_compute; reflexivity).
  assert (Hh : In (k / 60) (upto 24))
    by (apply upto_In; Z.div_mod_to_equations; lia).
  assert (Hm : In (k mod 60) (upto 60))
    by (apply upto_In; Z.div_mod_to_equations; lia).
  rewrite forallb_forall in H. specialize (H _ Hh).
  rewrite forallb_forall in H. specialize (H _ Hm).
  rewrite <- Z.div_mod in H by lia.
  apply andb_true_iff in H as [H1 H2].
  split; [assumption|].
  destruct (timeToMinutes _) as [|k']; [discriminate|].
  apply Z.eqb_eq in H2 as ->. reflexivity.
Qed.

(** C9 (as amended). For every valid "HH:MM" string [t],
    [minutesToTime (timeToMinutes t) = t]; and [minutesToTime] wraps a
    non-negative integer argument modulo 1440. *)
Theorem minutesToTime_roundtrip_wrap (t : string) (m : Z) :
  validHHMM t = true ->
  0 <= m ->
  minutesToTime (timeToMinutes t) = t
  /\ minutesToTime (Int m) = minutesToTime (Int (m mod 1440)).
Proof.
  intros Ht Hm. split.
  - apply roundTrips_valid, Ht.
  - apply minutesToTime_wrap, Hm.
Qed.

Lemma minutesToTime_roundtrip_wrap_witness :
  minutesToTime (timeToMinutes "23:59") = "23:59"
  /\ minutesToTime (Int 1470) = minutesToTime (Int (1470 mod 1440)).
Proof.
  apply (minutesToTime_roundtrip_wrap "23:59" 1470); [reflexivity | lia].
Defined.

(** C9, as stated, fails on a negative integer: the remainders keep the sign
    of the argument, so -30 is rendered "-1:-30" and not as 23:30, the time
    of -30 modulo 1440. *)
Lemma minutesToTime_negative_no_wrap :
  minutesToTime (Int (-30)) = "-1:-30"
  /\ minutesToTime (Int ((-30) mod 1440)) = "23:30"
  /\ ~ (forall m : Z, minutesToTime (Int m) = minutesToTime (Int (m mod 1440))).
Proof.
  split; [reflexivity|]. split; [reflexivity|].
  intros H. specialize (H (-30)). vm_compute in H. discriminate H.
Qed.

(** ** Moving an anchor *)

Lemma validHHMM_truthy (t : string) : validHHMM t = true -> truthy t = true.
Proof. destruct t; [discriminate | reflexivity]. Qed.

Lemma orElse_valid (newStartTime : option string) (fallback : string) :
  validStart newStartTime = true -> validHHMM fallback = true ->
  validHHMM (orElse newStartTime fallback) = true.
Proof.
  destruct newStartTime as [s|]; simpl; [|auto].
  intros Hs _. rewrite (validHHMM_truthy _ Hs). exact Hs.
Qed.

(** What [moveEvent] writes into every anchor that carries the moved id. *)
Lemma moveEvent_moved events eventId targetDay newStartTime e e' :
  find (hasId eventId) events = Some e ->
  In e' (moveEvent events eventId targetDay newStartTime) ->
  hasId eventId e' = true ->
  ev_day e' = targetDay
  /\ ev_startTime e' = orElse newStartTime (ev_startTime e)
  /\ ev_endTime e' =
       minutesToTime (add (timeToMinutes (orElse newStartTime (ev_startTime e)))
                          (duration e)).
Proof.
  intros He Hin Hid. unfold moveEvent in Hin. rewrite He in Hin.
  apply in_map_iff in Hin as (e0 & <- & _).
  destruct (hasId eventId e0) eqn:H0; [simpl; auto|congruence].
Qed.

(** The moved anchor is there after the move. *)
Lemma moveEvent_present events eventId targetDay newStartTime e :
  find (hasId eventId) events = Some e ->
  exists e', In e' (moveEvent events eventId targetDay newStartTime)
             /\ hasId eventId e' = true.
Proof.
  intros He. destruct (find_some _ _ He) as [Hin Hid].
  unfold moveEvent. rewrite He.
  eexists. split.
  - apply in_map_iff. exists e. split; [reflexivity | exact Hin].
  - simpl. rewrite Hid. exact Hid.
Qed.

(** The duration after a move is unchanged while the anchor ends within the
    day. *)
Lemma duration_after_move e e' (startTime : string) :
  validTimes e = true ->
  validHHMM startTime = true ->
  ev_startTime e' = startTime ->
  ev_endTime e' = minutesToTime (add (timeToMinutes startTime) (duration e)) ->
  endsWithinDay startTime e = true ->
  duration e' = duration e.
Proof.
  unfold validTimes, endsWithinDay. rewrite andb_true_iff.
  intros [Hs He] Hst Hstart Hend Hday.
  destruct (timeToMinutes_valid _ Hs) as (ks & Eks & Hks).
  destruct (timeToMinutes_valid _ He) as (ke & Eke & Hke).
  destruct (timeToMinutes_valid _ Hst) as (s & Es & Hsr).
  assert (Ed : duration e = Int (ke - ks)) by (unfold duration; rewrite Eks, Eke; reflexivity).
  rewrite Es, Ed in Hday. simpl in Hday.
  apply andb_true_iff in Hday as [H0%Z.leb_le H1%Z.ltb_lt].
  unfold duration at 1. rewrite Hend, Hstart, Es, Ed. simpl.
  destruct (minutesToTime_valid (s + (ke - ks))) as [_ ->]; [lia|].
  simpl. f_equal. lia.
Qed.

(** Past midnight the end wraps: the duration read off the moved anchor is
    1440 minutes less. *)
Lemma duration_after_move_wrapped e e' (startTime : string) (s d : Z) :
  validTimes e = true ->
  validHHMM startTime = true ->
  ev_startTime e' = startTime ->
  ev_endTime e' = minutesToTime (add (timeToMinutes startTime) (duration e)) ->
  timeToMinutes startTime = Int s -> duration e = Int d ->
  1440 <= s + d ->
  duration e' = Int (d - 1440).
Proof.
  unfold validTimes. rewrite andb_true_iff.
  intros [Hs He] Hst Hstart Hend Es Ed Hge.
  destruct (timeToMinutes_valid _ Hs) as (ks & Eks & Hks).
  destruct (timeToMinutes_valid _ He) as (ke & Eke & Hke).
  destruct (timeToMinutes_valid _ Hst) as (s' & Es' & Hsr).
  assert (s' = s) as -> by congruence.
  assert (d = ke - ks) as ->
    by (unfold duration in Ed; rewrite Eks, Eke in Ed; simpl in Ed; congruence).
  unfold duration at 1. rewrite Hend, Hstart, Es, Ed. simpl.
  rewrite minutesToTime_wrap by lia.
  replace ((s + (ke - ks)) mod 1440) with (s + (ke - ks) - 1440)
    by (Z.div_mod_to_equations; lia).
  destruct (minutesToTime_valid (s + (ke - ks) - 1440)) as [_ ->]; [lia|].
  simpl. f_equal. lia.
Qed.

(** The same without any assumption on the form of the times: it is enough
    that the new start plus the duration is a minute of the day. *)
Lemma duration_within_day e e' (startTime : string) :
  ev_startTime e' = startTime ->
  ev_endTime e' = minutesToTime (add (timeToMinutes startTime) (duration e)) ->
  endsWithinDay startTime e = true ->
  duration e' = duration e.
Proof.
  unfold endsWithinDay. intros Hstart Hend Hday.
  unfold duration at 1. rewrite Hend, Hstart.
  destruct (timeToMinutes startTime) as [|s]; [discriminate Hday|].
  destruct (duration e) as [|d]; [discriminate Hday|].
  simpl in Hday. apply andb_true_iff in Hday as [H0%Z.leb_le H1%Z.ltb_lt].
  simpl. destruct (minutesToTime_valid (s + d)) as [_ ->]; [lia|].
  simpl. f_equal. lia.
Qed.

Lemma lookup_map {A B : Type} (f : A -> B) (l : list A) (i : nat) :
  map f l !! i = f <$> (l !! i).
Proof.
  revert i. induction l as [|x l IH]; intros [|i]; simpl; try reflexivity. apply IH.
Qed.

(** The start that "shift to avoid" hands to [moveEvent] is never empty. *)
Lemma minutesToTime_truthy (m : num) : truthy (minutesToTime m) = true.
Proof.
  unfold minutesToTime. cbv zeta.
  destruct (String_ (rem (floor_div m 60) (Int 24))) as [|c [|c' s]]; reflexivity.
Qed.

(** C6 (as amended). Resolving an overlap conflict with "shift to avoid"
    moves the anchor to the target day with its start at
    [minutesToTime (timeToMinutes endTime)] of the overlapping anchor, which is
    that end time itself when it is a valid HH:MM time; and after any move
    through [moveEvent] (any resolution path, with or without a new start
    time) every anchor with the moved id carries the times computed from the
    anchor found for the id, the first with that id, and the duration of that
    anchor, end time minus start time in minutes, is unchanged, at its
    position in the schedule, whenever the new start plus the duration falls
    within the day. *)
Theorem shift_overlap_start_and_move_duration
    (dndWindows : list DNDWindow) (st : CalendarState) (conflict : ConflictType)
    (oid : string) (e o : ScheduleEvent) :
  st_conflict st = Some conflict ->
  c_overlappingEventId conflict = Some oid ->
  find (hasId (c_eventToMoveId conflict)) (st_scheduleEvents st) = Some e ->
  find (hasId oid) (st_scheduleEvents st) = Some o ->
  let moved := hasId (c_eventToMoveId conflict) in
  let after := resolveConflict dndWindows st shift_overlap in
  st_conflict after = None
  /\ (exists e', In e' (st_scheduleEvents after) /\ moved e' = true)
  /\ (forall e', In e' (st_scheduleEvents after) -> moved e' = true ->
        ev_startTime e' = minutesToTime (timeToMinutes (ev_endTime o))
        /\ (validHHMM (ev_endTime o) = true -> ev_startTime e' = ev_endTime o)
        /\ ev_day e' = c_targetDay conflict
        /\ (endsWithinDay (ev_startTime e') e = true -> duration e' = duration e))
  /\ (forall targetDay newStartTime e',
        In e' (moveEvent (st_scheduleEvents st) (c_eventToMoveId conflict)
                 targetDay newStartTime) ->
        moved e' = true ->
        ev_day e' = targetDay
        /\ ev_startTime e' = orElse newStartTime (ev_startTime e)
        /\ (endsWithinDay (ev_startTime e') e = true -> duration e' = duration e))
  /\ (forall targetDay newStartTime (i : nat),
        st_scheduleEvents st !! i = Some e ->
        exists e',
          moveEvent (st_scheduleEvents st) (c_eventToMoveId conflict)
            targetDay newStartTime !! i = Some e'
          /\ ev_id e' = ev_id e /\ ev_title e' = ev_title e
          /\ ev_day e' = targetDay
          /\ (endsWithinDay (ev_startTime e') e = true -> duration e' = duration e)).
Proof.
  intros Hc Hoid He Ho moved after.
  assert (Hafter : after = mkState
            (moveEvent (st_scheduleEvents st) (c_eventToMoveId conflict)
               (c_targetDay conflict)
               (Some (minutesToTime (timeToMinutes (ev_endTime o))))) None).
  { subst after. unfold resolveConflict. rewrite Hc, Hoid, Ho. reflexivity. }
  assert (Hmove : forall targetDay newStartTime e',
        In e' (moveEvent (st_scheduleEvents st) (c_eventToMoveId conflict)
                 targetDay newStartTime) ->
        moved e' = true ->
        ev_day e' = targetDay
        /\ ev_startTime e' = orElse newStartTime (ev_startTime e)
        /\ (endsWithinDay (ev_startTime e') e = true -> duration e' = duration e)).
  { intros targetDay newStartTime e' Hin Hid.
    destruct (moveEvent_moved _ _ _ _ _ _ He Hin Hid) as (Hday & Hstart & Hen).
    split; [exact Hday|]. split; [exact Hstart|]. rewrite Hstart. intros Hwithin.
    exact (duration_within_day e e' _ Hstart Hen Hwithin). }
  rewrite Hafter. simpl.
  split; [reflexivity|]. split; [|split; [|split; [exact Hmove|]]].
  - apply moveEvent_present with (e := e), He.
  - intros e' Hin Hid.
    destruct (Hmove _ _ e' Hin Hid) as (Hday & Hstart & Hdur).
    simpl in Hstart. rewrite minutesToTime_truthy in Hstart.
    split; [exact Hstart|]. split; [|split; [exact Hday | exact Hdur]].
    intros Hoend. rewrite Hstart. apply roundTrips_valid, Hoend.
  - intros targetDay newStartTime i Hi.
    destruct (find_some _ _ He) as [_ Hid].
    unfold moveEvent. rewrite He. cbv zeta. rewrite lookup_map, Hi.
    cbn [fmap option_fmap option_map]. rewrite Hid. eexists. split; [reflexivity|]. simpl.
    split; [reflexivity|]. split; [reflexivity|]. split; [reflexivity|].
    intros Hwithin.
    apply duration_within_day with (startTime := orElse newStartTime (ev_startTime e));
      [reflexivity | reflexivity | exact Hwithin].
Qed.

Lemma shift_overlap_start_and_move_duration_witness :
  let st := handleDrop [] (mkState [anchorD; anchorC; anchorB] None) "d" Tuesday in
  st_conflict st = Some (mkConflict conflict_overlap "d" Tuesday (Some "c"))
  /\ forall e', In e' (st_scheduleEvents (resolveConflict [] st shift_overlap)) ->
       hasId "d" e' = true ->
       ev_startTime e' = "10:00" /\ ev_day e' = Tuesday /\ duration e' = Int 60.
Proof.
  split; [reflexivity|].
  intros e' Hin Hid.
  destruct (shift_overlap_start_and_move_duration []
              (handleDrop [] (mkState [anchorD; anchorC; anchorB] None) "d" Tuesday)
              (mkConflict conflict_overlap "d" Tuesday (Some "c")) "c" anchorD anchorC
              eq_refl eq_refl eq_refl eq_refl)
    as (_ & _ & H & _).
  destruct (H e' Hin Hid) as (Hstart & _ & Hday & Hdur).
  split; [exact Hstart|]. split; [exact Hday|]. apply Hdur.
  rewrite Hstart. reflexivity.
Defined.

(** An end time that is not a zero-padded time of the day is not taken over
    as it is: behind an anchor ending at "24:00" the shifted anchor starts at
    "00:00", behind one ending at "8:30" at "08:30". *)
Example shift_overlap_start_normalised :
  let moved := mkEvent "a" Monday "Gym" "22:00" "23:30" in
  let o1 := mkEvent "b" Tuesday "Late show" "23:00" "24:00" in
  let o2 := mkEvent "b" Tuesday "Breakfast" "8:00" "8:30" in
  let conflict := mkConflict conflict_overlap "a" Tuesday (Some "b") in
  map ev_startTime
      (st_scheduleEvents
         (resolveConflict [] (mkState [moved; o1] (Some conflict)) shift_overlap))
    = ["00:00"; "23:00"]
  /\ map ev_startTime
       (st_scheduleEvents
          (resolveConflict [] (mkState [moved; o2] (Some conflict)) shift_overlap))
     = ["08:30"; "8:00"].
Proof. split; reflexivity. Qed.

(** With an id carried by two anchors, both receive the times computed from
    the first: the second, 30 minutes long, leaves the move 90 minutes
    long. *)
Example moveEvent_shared_id :
  let first := mkEvent "a" Monday "Gym" "10:00" "11:30" in
  let second := mkEvent "a" Monday "Stretch" "12:00" "12:30" in
  moveEvent [first; second] "a" Tuesday None
    = [mkEvent "a" Tuesday "Gym" "10:00" "11:30";
       mkEvent "a" Tuesday "Stretch" "10:00" "11:30"]
  /\ duration second = Int 30
  /\ duration (mkEvent "a" Tuesday "Stretch" "10:00" "11:30") = Int 90.
Proof. repeat split; reflexivity. Qed.

(** C6, as stated, fails when the shifted anchor would end after midnight:
    the 90-minute anchor 22:00-23:30 shifted behind an anchor ending at 23:00
    becomes 23:00-00:30, whose end minus start is -1350 minutes. *)
Lemma shift_overlap_changes_duration :
  let st := handleDrop [] (mkState [anchorA; anchorB] None) "a" Tuesday in
  let after := resolveConflict [] st shift_overlap in
  st_conflict st = Some (mkConflict conflict_overlap "a" Tuesday (Some "b"))
  /\ st_scheduleEvents after = [mkEvent "a" Tuesday "Gym" "23:00" "00:30"; anchorB]
  /\ duration anchorA = Int 90
  /\ duration (mkEvent "a" Tuesday "Gym" "23:00" "00:30") = Int (-1350)
  /\ ~ (forall e', In e' (st_scheduleEvents after) -> hasId "a" e' = true ->
          duration e' = duration anchorA).
Proof.
  repeat split; try reflexivity.
  intros H. specialize (H (mkEvent "a" Tuesday "Gym" "23:00" "00:30")).
  discriminate H; [left|]; reflexivity.
Qed.

(** ** Later today *)

Lemma laterTime_refines (now : Z) (dndWindows : list DNDWindow) :
  laterTime now dndWindows =
  laterTime_stated now (nextOccurrence now <$> dndStartToday now dndWindows).
Proof.
  unfold laterTime, dndStartToday, laterTime_stated, nextOccurrence.
  destruct (find _ dndWindows) as [w|]; [|reflexivity].
  destruct (truthy (dnd_startTime w)); [|reflexivity].
  destruct (split_numbers (dnd_startTime w)) as [[|h] [|m]]; try reflexivity.
  simpl. unfold msPerHour, msPerMinute.
  set (s := if _ <? now then _ else _).
  replace (Z.min (now + 3 * 3600000) (s - 15 * 60000))
    with (if now + 3 * 60 * 60 * 1000 >? s - 15 * 60000
          then s - 15 * 60000 else now + 3 * 60 * 60 * 1000); [reflexivity|].
  destruct (Z.gtb_spec (now + 3 * 60 * 60 * 1000) (s - 15 * 60000)); lia.
Qed.

Lemma laterTime_stated_bounds (now : Z) (dndStart : option Z) :
  now < laterTime_stated now dndStart <= now + 3 * msPerHour.
Proof.
  unfold laterTime_stated, msPerHour, msPerMinute.
  destruct dndStart as [s|]; simpl;
    match goal with |- context [?a <=? ?b] => destruct (Z.leb_spec a b) end; lia.
Qed.

(** C7 (as amended). "Later today" sets every reminder with the given id to
    Snoozed with [snoozedUntil] three hours from now, capped to 15 minutes
    before the next occurrence of today's DND window start time (today while
    that time has not passed, otherwise the same time tomorrow) whenever the
    cap is earlier; once the capped time has passed the target is one hour
    from now.  The target is always later than now and at most three hours
    away. *)
Theorem later_today_target
    (now : Z) (dndWindows : list DNDWindow) (smartReminders : list SmartReminder)
    (id : string) (r : SmartReminder) :
  In r smartReminders ->
  r_id r = id ->
  let target :=
    laterTime_stated now (nextOccurrence now <$> dndStartToday now dndWindows) in
  handleReminderAction now dndWindows smartReminders id act_later =
    map (fun x => if String.eqb (r_id x) id then snoozedLater now target x else x)
        smartReminders
  /\ In (snoozedLater now target r)
        (handleReminderAction now dndWindows smartReminders id act_later)
  /\ r_status (snoozedLater now target r) = Snoozed
  /\ r_snoozedUntil (snoozedLater now target r) = Some (Int target)
  /\ now < target <= now + 3 * msPerHour.
Proof.
  intros Hin Hid target.
  assert (Heq : handleReminderAction now dndWindows smartReminders id act_later =
    map (fun x => if String.eqb (r_id x) id then snoozedLater now target x else x)
        smartReminders).
  { unfold handleReminderAction.
    destruct (find _ smartReminders) as [r0|] eqn:Hfind.
    - apply map_ext. intros x. destruct (String.eqb (r_id x) id); [|reflexivity].
      simpl. unfold snoozedLater, target. rewrite laterTime_refines. reflexivity.
    - exfalso. apply (find_none _ _ Hfind) in Hin.
      apply String.eqb_neq in Hin. contradiction. }
  split; [exact Heq|]. split; [|split; [reflexivity|split; [reflexivity|]]].
  - rewrite Heq. apply in_map_iff. exists r. split; [|exact Hin].
    apply String.eqb_eq in Hid. rewrite Hid. reflexivity.
  - apply laterTime_stated_bounds.
Qed.

Lemma later_today_target_witness :
  let r := reminderOn "r1" "a" (-10) Active None in
  let target := monday 21 45 in
  In (snoozedLater (monday 20 0) target r)
     (handleReminderAction (monday 20 0) [mkDND Monday "22:00" "06:00"] [r] "r1" act_later)
  /\ monday 20 0 < target <= monday 20 0 + 3 * msPerHour.
Proof.
  intros r target.
  pose proof (later_today_target (monday 20 0) [mkDND Monday "22:00" "06:00"] [r] "r1" r
                ltac:(left; reflexivity) ltac:(reflexivity)) as H.
  cbv zeta in H. destruct H as (_ & H1 & _ & _ & H2).
  split; [exact H1 | exact H2].
Defined.

(** C7, as stated, fails once today's DND start has passed: at 10:00 with a
    window that started at 08:00 the cap 07:45 has passed, so the stated rule
    gives one hour from now, while the code takes the start at tomorrow's
    08:00 and snoozes for the full three hours. *)
Lemma later_today_after_dnd_start :
  let now := monday 10 0 in
  let dndWindows := [mkDND Monday "08:00" "09:00"] in
  let r := reminderOn "r1" "a" (-10) Active None in
  dndStartToday now dndWindows = Some (monday 8 0)
  /\ laterTime_stated now (dndStartToday now dndWindows) = now + msPerHour
  /\ map r_snoozedUntil (handleReminderAction now dndWindows [r] "r1" act_later)
     = [Some (Int (now + 3 * msPerHour))]
  /\ laterTime now dndWindows <> laterTime_stated now (dndStartToday now dndWindows).
Proof.
  repeat split; try reflexivity. vm_compute. discriminate.
Qed.

(** ** Sorting *)

Section SortFacts.
Context {A : Type} (cmp : A -> A -> num).

Lemma insert_sorted_Permutation (x : A) (l : list A) :
  Permutation (insert_sorted cmp x l) (x :: l).
Proof.
  induction l as [|y l IH]; simpl; [reflexivity|].
  destruct (after cmp x y); [|reflexivity].
  rewrite IH. apply perm_swap.
Qed.

Lemma sort_Permutation (l : list A) : Permutation (sort cmp l) l.
Proof.
  induction l as [|x l IH]; simpl; [reflexivity|].
  rewrite insert_sorted_Permutation. apply perm_skip, IH.
Qed.

Lemma sort_In (x : A) (l : list A) : In x (sort cmp l) <-> In x l.
Proof.
  split; apply Permutation_in; [|symmetry]; apply sort_Permutation.
Qed.

Lemma sort_length (l : list A) : length (sort cmp l) = length l.
Proof. apply Permutation_length, sort_Permutation. Qed.
End SortFacts.

(** ** The active list *)

Lemma activeReminders_In now rs events dnds pauseUntil (a : ActiveReminder) :
  pauseInEffect now pauseUntil = false ->
  In a (activeReminders now rs events dnds pauseUntil) <->
  exists r, In r rs /\ isListed r = true
            /\ resolveReminder now events dnds r = Some a.
Proof.
  intros Hp. unfold activeReminders. rewrite Hp, sort_In.
  rewrite <- list_elem_of_In, list_elem_of_omap.
  split; intros (r & Hr & Ha); exists r.
  - apply list_elem_of_filter in Hr as [Hl Hr]. apply list_elem_of_In in Hr. auto.
  - destruct Ha as [Hl Ha]. split; [|exact Ha].
    apply list_elem_of_filter. split; [exact Hl|]. apply list_elem_of_In, Hr.
Qed.

Lemma baseTrigger_snoozed now event r until :
  isSnoozedOrPaused r = true -> r_snoozedUntil r = Some until ->
  baseTrigger now event r = until.
Proof.
  intros Hs Hu. unfold baseTrigger.
  destruct (split_numbers _) as [h m]. rewrite Hu, Hs. reflexivity.
Qed.

(** Among the listed reminders with a resolved anchor, exactly the Active
    ones with a trigger before now are dropped. *)
Lemma resolveReminder_None_iff now events dnds r event :
  isListed r = true ->
  find (fun e => String.eqb (ev_id e) (r_eventId r)) events = Some event ->
  resolveReminder now events dnds r = None <->
  r_status r = Active /\ lt (baseTrigger now event r) (Int now) = true.
Proof.
  intros Hl He. unfold resolveReminder. rewrite He.
  unfold isListed, isSnoozedOrPaused in Hl.
  destruct (lt (baseTrigger now event r) (Int now)); simpl;
    destruct (dndShift now dnds (baseTrigger now event r)) as [t s];
    destruct (r_status r); simpl in *; split;
    try discriminate; try tauto; intros [? ?]; discriminate.
Qed.

(** C10 (as amended). While no global pause is in effect, a Snoozed or
    Paused reminder whose [snoozedUntil] lies in the past and whose anchor is
    in the schedule is still in the active list, with that instant as its
    trigger time before the DND shift; among the listed reminders whose
    anchor is found the stale drop removes Active ones only. *)
Theorem snoozed_past_still_listed
    (now : Z) (smartReminders : list SmartReminder) (scheduleEvents : list ScheduleEvent)
    (dndWindows : list DNDWindow) (pauseUntil : option num)
    (r : SmartReminder) (t : Z) (event : ScheduleEvent) :
  In r smartReminders ->
  r_status r = Snoozed \/ r_status r = Paused ->
  r_snoozedUntil r = Some (Int t) ->
  t < now ->
  pauseInEffect now pauseUntil = false ->
  find (fun e => String.eqb (ev_id e) (r_eventId r)) scheduleEvents = Some event ->
  baseTrigger now event r = Int t
  /\ In (mkActive r event (dndShift now dndWindows (Int t)).1
                          (dndShift now dndWindows (Int t)).2)
        (activeReminders now smartReminders scheduleEvents dndWindows pauseUntil)
  /\ (forall r' event',
        isListed r' = true ->
        find (fun e => String.eqb (ev_id e) (r_eventId r')) scheduleEvents = Some event' ->
        resolveReminder now scheduleEvents dndWindows r' = None ->
        r_status r' = Active /\ lt (baseTrigger now event' r') (Int now) = true).
Proof.
  intros Hin Hst Hu Hpast Hp He.
  assert (Hs : isSnoozedOrPaused r = true).
  { unfold isSnoozedOrPaused. destruct Hst as [-> | ->]; reflexivity. }
  pose proof (baseTrigger_snoozed now event r _ Hs Hu) as Hb.
  split; [exact Hb|]. split.
  - apply activeReminders_In; [exact Hp|]. exists r. split; [exact Hin|].
    split; [unfold isListed; rewrite Hs; apply orb_true_r|].
    unfold resolveReminder. rewrite He, Hb.
    destruct (dndShift now dndWindows (Int t)) as [t' s'].
    destruct Hst as [-> | ->]; simpl; rewrite ?andb_false_r; reflexivity.
  - intros r' event' Hl' He' Hnone.
    apply (resolveReminder_None_iff now scheduleEvents dndWindows r' event' Hl' He'), Hnone.
Qed.

Lemma snoozed_past_still_listed_witness :
  let r := reminderOn "r1" "a" (-10) Snoozed (Some (Int (monday 9 0))) in
  let event := mkEvent "a" Monday "Gym" "18:00" "19:00" in
  In (mkActive r event (Int (monday 9 0)) None)
     (activeReminders (monday 12 0) [r] [event] [mkDND Monday "22:00" "06:00"] None).
Proof.
  intros r event.
  apply (snoozed_past_still_listed (monday 12 0) [r] [event]
           [mkDND Monday "22:00" "06:00"] None r (monday 9 0) event);
    [left; reflexivity | left; reflexivity | reflexivity | reflexivity
    | reflexivity | reflexivity].
Defined.

(** C10, as stated, fails while a global pause is in effect and for a
    reminder whose anchor has left the schedule: the list is empty in both
    cases, so the Snoozed reminder with a past [snoozedUntil] is not on it. *)
Lemma snoozed_past_dropped_under_pause_or_without_anchor :
  let r := reminderOn "r1" "a" (-10) Snoozed (Some (Int (monday 9 0))) in
  let event := mkEvent "a" Monday "Gym" "18:00" "19:00" in
  activeReminders (monday 12 0) [r] [event] [] (Some (Int (monday 13 0))) = []
  /\ activeReminders (monday 12 0) [r] [] [] None = []
  /\ ~ (forall now smartReminders scheduleEvents dndWindows pauseUntil r t,
          In r smartReminders ->
          r_status r = Snoozed \/ r_status r = Paused ->
          r_snoozedUntil r = Some (Int t) ->
          t < now ->
          exists a,
            In a (activeReminders now smartReminders scheduleEvents dndWindows pauseUntil)
            /\ ar_reminder a = r).
Proof.
  intros r event. split; [reflexivity|]. split; [reflexivity|].
  intros H.
  destruct (H (monday 12 0) [r] [event] [] (Some (Int (monday 13 0))) r (monday 9 0))
    as (a & Hin & _);
    [left; reflexivity | left; reflexivity | reflexivity | reflexivity |].
  destruct Hin.
Qed.

(** The scenarios of the specification: offset -10 on an anchor at 09:00. *)
Example scenario_no_dnd :
  let event := mkEvent "a" Monday "Standup" "09:00" "09:30" in
  let r := reminderOn "r1" "a" (-10) Active None in
  activeReminders (monday 8 0) [r] [event] [] None
    = [mkActive r event (Int (monday 8 50)) None].
Proof. reflexivity. Qed.

Example scenario_dnd_shift :
  let event := mkEvent "a" Monday "Standup" "09:00" "09:30" in
  let r := reminderOn "r1" "a" (-10) Active None in
  activeReminders (monday 7 0) [r] [event] [mkDND Monday "08:00" "09:00"] None
    = [mkActive r event (Int (monday 9 0)) (Some "DND-shifted")].
Proof. reflexivity. Qed.

Example scenario_paused :
  let event := mkEvent "a" Monday "Standup" "09:00" "09:30" in
  let r := reminderOn "r1" "a" (-10) Active None in
  activeReminders (monday 8 0) [r] [event] [] (Some (Int (monday 8 0 + msPerDay))) = [].
Proof. reflexivity. Qed.

(** The DND shift never leaves a trigger inside the half-open window
    [dndStart, dndEnd) that it tests against. *)
Lemma dndShift_outside now dnds w dndStart dndEnd (triggerTime : num) :
  find (fun d => bool_decide (dnd_day d = todayDay now)) dnds = Some w ->
  dndBounds now w = Some (dndStart, dndEnd) ->
  ge (dndShift now dnds triggerTime).1 dndStart
  && lt (dndShift now dnds triggerTime).1 dndEnd = false.
Proof.
  intros Hw Hb. unfold dndShift. rewrite Hw, Hb.
  destruct (ge triggerTime dndStart && le triggerTime dndEnd) eqn:Hin; simpl.
  - rewrite lt_irrefl. apply andb_false_r.
  - apply andb_false_iff in Hin as [-> | Hle]; [reflexivity|].
    apply andb_false_iff. right.
    destruct triggerTime as [|t], dndEnd as [|e]; simpl in *; try reflexivity. lia.
Qed.

(** C1, evaluated at 03:00 on a Monday with the overnight window
    23:00-07:00: the reminder due at 23:30 that evening comes back unshifted
    and without annotation, although 23:30 is inside the window, by the
    containment of the specification and by the test of the theme engine. *)
Theorem activeReminders_evening_inside_overnight_window :
  let now := monday 3 0 in
  let event := mkEvent "a" Monday "Night shift" "23:40" "23:50" in
  let r := reminderOn "r1" "a" (-10) Active None in
  let window := mkDND Monday "23:00" "07:00" in
  activeReminders now [r] [event] [window] None
    = [mkActive r event (Int (monday 23 30)) None]
  /\ timeToMinutes "23:00" = Int 1380 /\ timeToMinutes "07:00" = Int 420
  /\ insideDND 1380 420 (minuteOfDay (monday 23 30)) = true
  /\ dndWindowActive (minuteOfDay (monday 23 30)) window = true.
Proof. repeat split; reflexivity. Qed.

(** The test against the window is closed at its end: a trigger exactly at
    the end of the window is annotated, and keeps its time. *)
Lemma activeReminders_at_window_end :
  let now := monday 7 30 in
  let event := mkEvent "a" Monday "Breakfast" "09:10" "09:40" in
  let r := reminderOn "r1" "a" (-10) Active None in
  activeReminders now [r] [event] [mkDND Monday "08:00" "09:00"] None
    = [mkActive r event (Int (monday 9 0)) (Some "DND-shifted")]
  /\ insideDND 480 540 (minuteOfDay (monday 9 0)) = false.
Proof. repeat split; reflexivity. Qed.

(** The containment of the specification on its own examples: with the
    window 23:00-07:00, 23:30 and 03:00 are inside and 12:00 is not. *)
Example insideDND_overnight :
  insideDND 1380 420 1410 = true /\ insideDND 1380 420 180 = true
  /\ insideDND 1380 420 720 = false.
Proof. repeat split; reflexivity. Qed.

(** ** The completion history *)

Section SortByKey.
Context {A : Type} (key : A -> Z) (cmp : A -> A -> num).
Hypothesis cmp_key : forall a b, cmp a b = Int (key a - key b).

Let ordered (a b : A) : Prop := key a <= key b.

Lemma after_key (a b : A) : after cmp a b = true <-> key b < key a.
Proof. unfold after, gt. rewrite cmp_key. simpl. lia. Qed.

Lemma insert_sorted_ordered (x : A) (l : list A) :
  StronglySorted ordered l -> StronglySorted ordered (insert_sorted cmp x l).
Proof.
  induction 1 as [|y l Hl IH Hy]; simpl.
  - repeat constructor.
  - destruct (after cmp x y) eqn:Hxy.
    + apply after_key in Hxy. constructor; [exact IH|].
      rewrite insert_sorted_Permutation.
      constructor; [unfold ordered; lia | exact Hy].
    + assert (key x <= key y) as Hle.
      { destruct (Z.le_gt_cases (key x) (key y)) as [H|H]; [exact H|].
        apply Z.gt_lt_iff, Z.gt_lt, after_key in H. congruence. }
      constructor; [constructor; assumption|].
      constructor; [exact Hle|].
      eapply Forall_impl; [exact Hy|]. unfold ordered. simpl. intros; lia.
Qed.

Lemma sort_ordered (l : list A) : StronglySorted ordered (sort cmp l).
Proof.
  induction l as [|x l IH]; simpl; [constructor|].
  apply insert_sorted_ordered, IH.
Qed.

(** A stable sort leaves an ordered list as it is. *)
Lemma sort_ordered_id (l : list A) : StronglySorted ordered l -> sort cmp l = l.
Proof.
  induction 1 as [|x l Hl IH Hx]; simpl; [reflexivity|].
  rewrite IH. destruct l as [|y l]; [reflexivity|]. simpl.
  destruct (after cmp x y) eqn:Hxy; [|reflexivity].
  apply after_key in Hxy. inversion Hx; subst. unfold ordered in *. lia.
Qed.

(** The last element of an ordered list is a greatest one. *)
Lemma ordered_last (l : list A) (x : A) :
  StronglySorted ordered (l ++ [x]) -> Forall (fun y => key y <= key x) (l ++ [x]).
Proof.
  induction l as [|y l IH]; simpl; intros H.
  - repeat constructor. lia.
  - inversion H as [|? ? Hl Hy]; subst. constructor.
    + rewrite Forall_app in Hy. destruct Hy as [_ Hy]. inversion Hy; subst. assumption.
    + apply IH, Hl.
Qed.
End SortByKey.

Lemma getCompletionHistory_lookup (stored : Stored) (tag : EnergyTag) :
  getCompletionHistory stored !! tag =
  Some (match stored with Parsed parsed => recordsOf parsed tag | _ => [] end).
Proof.
  destruct stored as [| |parsed]; unfold getCompletionHistory; simpl;
    destruct tag; simplify_map_eq; reflexivity.
Qed.

(** Every tag is present in the history that is read, with the records of
    the store. *)
Lemma getCompletionHistory_records (parsed : gmap EnergyTag (list CompletionRecord))
    (tag : EnergyTag) :
  recordsOf (getCompletionHistory (Parsed parsed)) tag = recordsOf parsed tag.
Proof. unfold recordsOf at 1. rewrite getCompletionHistory_lookup. reflexivity. Qed.

Lemma byCompletedAtDesc_key (a b : CompletionRecord) :
  byCompletedAtDesc a b = Int ((fun r : CompletionRecord => - completedAt r) a
                               - (fun r : CompletionRecord => - completedAt r) b).
Proof. unfold byCompletedAtDesc. simpl. f_equal. lia. Qed.

Lemma byCompletedAtAsc_key (a b : CompletionRecord) :
  byCompletedAtAsc a b = Int ((fun r : CompletionRecord => completedAt r) a
                              - (fun r : CompletionRecord => completedAt r) b).
Proof. reflexivity. Qed.

(** Pruning a list of one more than [n] records, newest first, drops an
    oldest record. *)
Lemma prune_drops_oldest (n : nat) (l : list CompletionRecord) :
  length l = S n ->
  length (take n (sort byCompletedAtDesc l)) = n
  /\ exists evicted,
       Permutation (evicted :: take n (sort byCompletedAtDesc l)) l
       /\ Forall (fun r : CompletionRecord => completedAt evicted <= completedAt r) l.
Proof.
  intros Hlen.
  pose proof (sort_length byCompletedAtDesc l) as Hsl.
  pose proof (sort_Permutation byCompletedAtDesc l) as Hperm.
  pose proof (sort_ordered _ _ byCompletedAtDesc_key l) as Hsorted.
  set (s := sort byCompletedAtDesc l) in *.
  assert (Htake : length (take n s) = n) by (rewrite length_take; lia).
  split; [exact Htake|].
  destruct (drop n s) as [|evicted rest] eqn:Hdrop.
  { apply (f_equal length) in Hdrop. rewrite length_drop in Hdrop. simpl in Hdrop. lia. }
  assert (rest = []) as ->.
  { apply (f_equal length) in Hdrop. rewrite length_drop in Hdrop. simpl in Hdrop.
    destruct rest; [reflexivity | simpl in Hdrop; lia]. }
  assert (Hs : s = take n s ++ [evicted]) by (rewrite <- Hdrop, take_drop; reflexivity).
  exists evicted. split.
  - transitivity s; [|exact Hperm].
    transitivity (take n s ++ [evicted]); [apply Permutation_cons_append|].
    rewrite <- Hs. reflexivity.
  - rewrite <- Hperm. rewrite Hs in Hsorted |- *.
    apply ordered_last in Hsorted.
    eapply Forall_impl; [exact Hsorted|]. simpl. intros; lia.
Qed.

(** C5. Appending to a category that holds exactly 100 records leaves
    exactly 100 records, and the record that goes is an oldest one, by
    [completedAt], of the 101 candidates; appending to a category with fewer
    than 100 records evicts nothing. *)
Theorem addRecordToHistory_retention (stored : Stored) (now : Z) (record : CompletionData) :
  let tag := energyTag record in
  let old := recordsOf (getCompletionHistory stored) tag in
  let newRecord := mkRecord ("cr-" +:+ String_ (Int now)) record in
  let kept := recordsOf (addRecordToHistory stored now record) tag in
  ((length old < 100)%nat -> kept = old ++ [newRecord])
  /\ (length old = 100%nat ->
      length kept = 100%nat
      /\ exists evicted,
           Permutation (evicted :: kept) (old ++ [newRecord])
           /\ Forall (fun r : CompletionRecord => completedAt evicted <= completedAt r)
                     (old ++ [newRecord])).
Proof.
  intros tag old newRecord kept.
  assert (Hkept : kept =
    if bool_decide (MAX_RECORDS_PER_TAG < length (old ++ [newRecord]))%nat
    then take MAX_RECORDS_PER_TAG (sort byCompletedAtDesc (old ++ [newRecord]))
    else old ++ [newRecord]).
  { subst kept. unfold addRecordToHistory. fold tag. fold old. fold newRecord.
    unfold recordsOf at 1. case_bool_decide; rewrite lookup_insert_eq; reflexivity. }
  rewrite Hkept, length_app. simpl. unfold MAX_RECORDS_PER_TAG. split.
  - intros Hlt. rewrite bool_decide_eq_false_2 by lia. reflexivity.
  - intros Heq. rewrite bool_decide_eq_true_2 by lia.
    apply prune_drops_oldest. rewrite length_app. simpl. lia.
Qed.

Lemma addRecordToHistory_retention_witness :
  let record := mkData 45 60 Creative 500000 3 1 Typical in
  length (recordsOf (addRecordToHistory fullStore 7 record) Creative) = 100%nat.
Proof.
  intros record.
  apply (proj2 (addRecordToHistory_retention fullStore 7 record)).
  vm_compute. reflexivity.
Defined.

(** ** The personalized estimate *)

Lemma foldl_subSteps (rs : list CompletionRecord) (a : Z) :
  foldl (fun sum (r : CompletionRecord) => sum + subStepCount r) a rs
  = a + sumSubSteps rs.
Proof.
  revert a. induction rs as [|r rs IH]; intros a; simpl; [lia|].
  rewrite IH. lia.
Qed.

(** C2. [getPersonalizedEstimate] returns null exactly when the target
    category holds fewer than 5 records or its sub-step counts sum to zero;
    on every other input it returns an estimate. *)
Theorem getPersonalizedEstimate_null_iff
    (Math_sqrt : Q -> Q) (history : gmap EnergyTag (list CompletionRecord))
    (tag : EnergyTag) (subSteps : Z) (sensitivity : option Q) :
  let result := getPersonalizedEstimate Math_sqrt history tag subSteps sensitivity in
  let insufficient :=
    (length (recordsOf history tag) < 5)%nat \/ sumSubSteps (recordsOf history tag) = 0 in
  (result = None <-> insufficient)
  /\ (~ insufficient <-> exists estimate, result = Some estimate).
Proof.
  intros result insufficient.
  assert (H : result = None <-> insufficient).
  { subst result insufficient. unfold getPersonalizedEstimate. cbv zeta.
    rewrite foldl_subSteps, Z.add_0_l.
    case_bool_decide as Hlen; [tauto|].
    destruct (Z.eqb_spec (sumSubSteps (recordsOf history tag)) 0) as [Hz|Hz]; [tauto|].
    split; [discriminate | intros [?|?]; contradiction]. }
  split; [exact H|].
  rewrite <- H. destruct result as [e|]; split.
  - intros _. exists e. reflexivity.
  - intros _. discriminate.
  - intros Hn. contradiction.
  - intros [e He]. discriminate.
Qed.

Lemma getPersonalizedEstimate_null_iff_witness :
  getPersonalizedEstimate sqrt_floor sixCreative Tedious 3 None = None.
Proof.
  apply (proj1 (getPersonalizedEstimate_null_iff sqrt_floor sixCreative Tedious 3 None)).
  left. vm_compute. lia.
Defined.



Lemma foldl_Qeq (f : Q -> Q -> Q) (l l' : list Q) (a a' : Q) :
  (forall x x' y y', x == x' -> y == y' -> f x y == f x' y')%Q ->
  Forall2 Qeq l l' -> (a == a')%Q -> (foldl f a l == foldl f a' l')%Q.
Proof.
  intros Hf Hl. revert a a'.
  induction Hl as [|x x' l l' Hx Hl IH]; intros a a' Ha; simpl; [exact Ha|].
  apply IH, Hf; assumption.
Qed.

Lemma Qsum_Qeq (l l' : list Q) : Forall2 Qeq l l' -> (Qsum l == Qsum l')%Q.
Proof.
  intros Hl. apply foldl_Qeq; [|exact Hl|reflexivity].
  intros x x' y y' -> ->. reflexivity.
Qed.

Lemma calculateEWMA_Qeq (l l' : list Q) (alpha : Q) :
  Forall2 Qeq l l' -> (calculateEWMA l alpha == calculateEWMA l' alpha)%Q.
Proof.
  intros Hl. unfold calculateEWMA.
  destruct Hl as [|x x' l l' Hx Hl]; [reflexivity|].
  apply foldl_Qeq; [|constructor; assumption|exact Hx].
  intros a a' y y' -> ->. reflexivity.
Qed.

Lemma Math_round_Qeq (x y : Q) : (x == y)%Q -> Math_round x = Math_round y.
Proof. intros H. unfold Math_round. apply Qfloor_comp. rewrite H. reflexivity. Qed.

Lemma adjusted_scenario (rs : list CompletionRecord) (ds : list Z) :
  Forall2 scenarioRecord rs ds -> Forall2 Qeq (map adjusted rs) (map inject_Z ds).
Proof.
  induction 1 as [|r d rs ds (Hd & Hdiff & _) _ IH]; simpl; constructor; [|exact IH].
  unfold adjusted. rewrite Hdiff, Hd. unfold difficultyValue. field.
Qed.

Lemma sumSubSteps_scenario (rs : list CompletionRecord) (ds : list Z) :
  Forall2 scenarioRecord rs ds -> sumSubSteps rs = 3 * Z.of_nat (length rs).
Proof.
  induction 1 as [|r d rs ds (_ & _ & Hn) _ IH]; [reflexivity|].
  cbn [sumSubSteps foldr length]. fold (sumSubSteps rs). rewrite IH, Hn. lia.
Qed.

(** C3. With the default sensitivity, six Creative records in chronological
    order with the durations 50, 55, 60, 58, 62, 57 at difficulty 1.0 and
    three sub-steps each give, for a Creative task of three sub-steps, an
    estimate with [p50 = 57] (in the range 57 to 60) and confidence low. *)
Theorem creative_scenario_estimate
    (Math_sqrt : Q -> Q) (history : gmap EnergyTag (list CompletionRecord))
    (rs : list CompletionRecord) :
  recordsOf history Creative = rs ->
  Forall2 scenarioRecord rs scenarioDurations ->
  chronological rs ->
  exists estimate,
    getPersonalizedEstimate Math_sqrt history Creative 3 None = Some estimate
    /\ p50 estimate = 57
    /\ 57 <= p50 estimate <= 60
    /\ confidence estimate = low.
Proof.
  intros Hrs Hscen Hchron.
  pose proof (Forall2_length _ _ _ Hscen) as Hlen. simpl in Hlen.
  pose proof (sumSubSteps_scenario _ _ Hscen) as Hsum. rewrite Hlen in Hsum.
  pose proof (adjusted_scenario _ _ Hscen) as Hadj.
  unfold getPersonalizedEstimate. cbv zeta. rewrite Hrs, Hlen.
  rewrite foldl_subSteps, Hsum.
  rewrite (sort_ordered_id _ _ byCompletedAtAsc_key rs Hchron).
  simpl bool_decide. cbv iota. simpl (_ =? _). cbv iota.
  eexists. split; [reflexivity|]. simpl p50. simpl confidence.
  match goal with
  | |- Z.max 5 (Math_round ?x) = 57 /\ _ => assert (Hp50 : Math_round x = 57)
  end.
  { erewrite Math_round_Qeq.
    2:{ rewrite (Qsum_Qeq _ _ Hadj), (calculateEWMA_Qeq _ _ _ Hadj). reflexivity. }
    vm_compute. reflexivity. }
  rewrite Hp50. repeat split; lia.
Qed.

Lemma creative_scenario_estimate_witness :
  exists estimate,
    getPersonalizedEstimate sqrt_floor sixCreative Creative 3 None = Some estimate
    /\ p50 estimate = 57
    /\ 57 <= p50 estimate <= 60
    /\ confidence estimate = low.
Proof.
  apply (creative_scenario_estimate sqrt_floor sixCreative sixRecords).
  - reflexivity.
  - vm_compute. repeat constructor.
  - unfold chronological, sixRecords. repeat constructor; simpl; lia.
Defined.

(** * Further properties of the code *)

(** ** Moves and conflicts *)

(** X1. A move touches nothing but the anchors with the moved id: the ids
    and titles of the schedule stay as they are, position by position, every
    other anchor is unchanged, and an unknown id changes nothing at all. *)
Theorem moveEvent_frame
    (events : list ScheduleEvent) (eventId : string) (targetDay : Day)
    (newStartTime : option string) :
  let moved := moveEvent events eventId targetDay newStartTime in
  map ev_id moved = map ev_id events
  /\ map ev_title moved = map ev_title events
  /\ others eventId moved = others eventId events
  /\ (find (hasId eventId) events = None -> moved = events).
Proof.
  unfold moveEvent. destruct (find (hasId eventId) events) as [e|] eqn:He; simpl.
  2:{ repeat split; reflexivity. }
  repeat split.
  - rewrite map_map. apply map_ext. intros x. destruct (hasId eventId x); reflexivity.
  - rewrite map_map. apply map_ext. intros x. destruct (hasId eventId x); reflexivity.
  - unfold others. clear He. induction events as [|x xs IH]; [reflexivity|].
    simpl. destruct (hasId eventId x) eqn:Hx; simpl.
    + unfold hasId at 1. simpl. fold (hasId eventId x). rewrite Hx. simpl. exact IH.
    + rewrite Hx. simpl. f_equal. exact IH.
  - discriminate.
Qed.

Lemma moveEvent_frame_witness :
  others "a" (moveEvent [anchorA; anchorB] "a" Tuesday (Some "08:00")) = [anchorB].
Proof.
  apply (proj1 (proj2 (proj2 (moveEvent_frame [anchorA; anchorB] "a" Tuesday (Some "08:00"))))).
Defined.



(** X3. A drop that raises a conflict leaves the schedule as it was, and the
    conflict it raises is accurate: a DND conflict means the anchor overlaps
    the window of the target day, an overlap conflict names an anchor of the
    target day, other than the moved one, that the moved anchor overlaps, and
    is raised only when the window of the target day is not hit. *)
Theorem handleDrop_conflict_accurate
    (dndWindows : list DNDWindow) (st : CalendarState) (eventId : string) (day : Day)
    (e : ScheduleEvent) (conflict : ConflictType) :
  st_conflict st = None ->
  find (hasId eventId) (st_scheduleEvents st) = Some e ->
  st_conflict (handleDrop dndWindows st eventId day) = Some conflict ->
  let overlapsWith (s t : string) :=
    doTimesOverlap (ev_startTime e) (ev_endTime e) s t in
  let dndHit :=
    match find (fun w => bool_decide (dnd_day w = day)) dndWindows with
    | Some dnd => overlapsWith (dnd_startTime dnd) (dnd_endTime dnd)
    | None => false
    end in
  st_scheduleEvents (handleDrop dndWindows st eventId day) = st_scheduleEvents st
  /\ ev_day e <> day
  /\ c_eventToMoveId conflict = eventId
  /\ c_targetDay conflict = day
  /\ match c_type conflict with
     | conflict_dnd => dndHit = true /\ c_overlappingEventId conflict = None
     | conflict_overlap =>
         dndHit = false
         /\ exists o, c_overlappingEventId conflict = Some (ev_id o)
                      /\ In o (st_scheduleEvents st)
                      /\ ev_day o = day
                      /\ hasId eventId o = false
                      /\ overlapsWith (ev_startTime o) (ev_endTime o) = true
     end.
Proof.
  intros Hnone He. unfold handleDrop. rewrite He.
  case_bool_decide as Hday; [rewrite Hnone; discriminate|].
  cbv zeta.
  destruct (match find _ dndWindows with Some _ => _ | None => false end) eqn:Hhit.
  - simpl. intros [= <-]. simpl. repeat split; auto.
  - match goal with
    | |- context [find ?p (st_scheduleEvents st)] =>
        destruct (find p (st_scheduleEvents st)) as [o|] eqn:Ho; simpl
    end.
    + intros [= <-]. simpl. repeat split; try assumption.
      destruct (find_some _ _ Ho) as [Hin Hp].
      rewrite !andb_true_iff in Hp. destruct Hp as [[Hd Hn] Hov].
      apply bool_decide_eq_true in Hd. apply negb_true_iff in Hn.
      exists o. repeat split; auto.
    + rewrite Hnone. discriminate.
Qed.

Lemma handleDrop_conflict_accurate_witness :
  let st := handleDrop [] (mkState [anchorD; anchorC; anchorB] None) "d" Tuesday in
  st_scheduleEvents st = [anchorD; anchorC; anchorB] /\ ev_day anchorD <> Tuesday.
Proof.
  destruct (handleDrop_conflict_accurate [] (mkState [anchorD; anchorC; anchorB] None)
              "d" Tuesday anchorD (mkConflict conflict_overlap "d" Tuesday (Some "c"))
              eq_refl eq_refl eq_refl) as (H1 & H2 & _).
  split; [exact H1 | exact H2].
Defined.

(** X4. "Shift to avoid" removes the overlap it resolves: once the conflict
    is resolved, the moved anchor no longer overlaps the anchor it was
    shifted behind. *)
Theorem shift_overlap_removes_overlap
    (dndWindows : list DNDWindow) (st : CalendarState) (conflict : ConflictType)
    (oid : string) (e o e' : ScheduleEvent) :
  st_conflict st = Some conflict ->
  c_overlappingEventId conflict = Some oid ->
  find (hasId (c_eventToMoveId conflict)) (st_scheduleEvents st) = Some e ->
  find (hasId oid) (st_scheduleEvents st) = Some o ->
  validHHMM (ev_endTime o) = true ->
  In e' (st_scheduleEvents (resolveConflict dndWindows st shift_overlap)) ->
  hasId (c_eventToMoveId conflict) e' = true ->
  doTimesOverlap (ev_startTime e') (ev_endTime e') (ev_startTime o) (ev_endTime o) = false.
Proof.
  intros Hc Hoid He Ho Hoend Hin Hid.
  unfold resolveConflict in Hin. rewrite Hc, Hoid, Ho in Hin. simpl in Hin.
  rewrite (roundTrips_valid _ Hoend) in Hin.
  destruct (moveEvent_moved _ _ _ _ _ _ He Hin Hid) as (_ & Hstart & _).
  simpl in Hstart. rewrite (validHHMM_truthy _ Hoend) in Hstart.
  unfold doTimesOverlap. cbv zeta. rewrite Hstart, lt_irrefl. reflexivity.
Qed.

Lemma shift_overlap_removes_overlap_witness :
  doTimesOverlap "10:00" "11:00" (ev_startTime anchorC) (ev_endTime anchorC) = false.
Proof.
  apply (shift_overlap_removes_overlap []
           (mkState [anchorD; anchorC; anchorB]
              (Some (mkConflict conflict_overlap "d" Tuesday (Some "c"))))
           (mkConflict conflict_overlap "d" Tuesday (Some "c")) "c" anchorD anchorC
           (mkEvent "d" Tuesday "Study" "10:00" "11:00"));
    [reflexivity | reflexivity | reflexivity | reflexivity | reflexivity
    | left; reflexivity | reflexivity].
Defined.

(** X5. "Shift past DND" removes the DND conflict it resolves: with a window
    for the target day whose end time is set, the moved anchor starts at the
    window's end and no longer overlaps the window; the pending conflict is
    cleared. *)
Theorem shift_dnd_removes_conflict
    (dndWindows : list DNDWindow) (st : CalendarState) (conflict : ConflictType)
    (w : DNDWindow) (e e' : ScheduleEvent) :
  st_conflict st = Some conflict ->
  find (fun d => bool_decide (dnd_day d = c_targetDay conflict)) dndWindows = Some w ->
  truthy (dnd_endTime w) = true ->
  find (hasId (c_eventToMoveId conflict)) (st_scheduleEvents st) = Some e ->
  In e' (st_scheduleEvents (resolveConflict dndWindows st shift_dnd)) ->
  hasId (c_eventToMoveId conflict) e' = true ->
  st_conflict (resolveConflict dndWindows st shift_dnd) = None
  /\ ev_day e' = c_targetDay conflict
  /\ ev_startTime e' = dnd_endTime w
  /\ doTimesOverlap (ev_startTime e') (ev_endTime e')
       (dnd_startTime w) (dnd_endTime w) = false.
Proof.
  intros Hc Hw Hend He Hin Hid.
  unfold resolveConflict in *. rewrite Hc in *. rewrite Hw in *. simpl in *.
  destruct (moveEvent_moved _ _ _ _ _ _ He Hin Hid) as (Hday & Hstart & _).
  simpl in Hstart. rewrite Hend in Hstart.
  repeat split; try assumption.
  unfold doTimesOverlap. cbv zeta. rewrite Hstart, lt_irrefl. reflexivity.
Qed.

Lemma shift_dnd_removes_conflict_witness :
  let w := mkDND Tuesday "08:00" "10:00" in
  let e' := mkEvent "d" Tuesday "Study" "10:00" "11:00" in
  ev_startTime e' = dnd_endTime w
  /\ doTimesOverlap (ev_startTime e') (ev_endTime e')
       (dnd_startTime w) (dnd_endTime w) = false.
Proof.
  destruct (shift_dnd_removes_conflict [mkDND Tuesday "08:00" "10:00"]
              (mkState [anchorD] (Some (mkConflict conflict_dnd "d" Tuesday None)))
              (mkConflict conflict_dnd "d" Tuesday None)
              (mkDND Tuesday "08:00" "10:00") anchorD
              (mkEvent "d" Tuesday "Study" "10:00" "11:00")
              eq_refl eq_refl eq_refl eq_refl (or_introl eq_refl) eq_refl)
    as (_ & _ & H1 & H2).
  split; [exact H1 | exact H2].
Defined.

(** ** Reminder actions *)

Lemma updateReminder_id now dnds b action r :
  r_id (updateReminder now dnds b action r) = r_id r.
Proof.
  destruct action; simpl; try reflexivity.
  destruct (r_isExploratory r), (r_originalOffsetMinutes r); reflexivity.
Qed.

Lemma find_map_preserving {A : Type} (p : A -> bool) (f : A -> A) (l : list A) :
  (forall x, p (f x) = p x) -> find p (map f l) = f <$> find p l.
Proof.
  intros Hp. induction l as [|x l IH]; [reflexivity|].
  simpl. rewrite Hp. destruct (p x); [reflexivity | exact IH].
Qed.

(** X6. A reminder action touches nothing but the reminders with the given
    id: the ids of the list stay as they are, position by position, every
    other reminder is unchanged, and an unknown id changes nothing at all. *)
Theorem handleReminderAction_frame
    (now : Z) (dndWindows : list DNDWindow) (smartReminders : list SmartReminder)
    (id : string) (action : ReminderAction) :
  let updated := handleReminderAction now dndWindows smartReminders id action in
  map r_id updated = map r_id smartReminders
  /\ otherReminders id updated = otherReminders id smartReminders
  /\ (find (fun r => String.eqb (r_id r) id) smartReminders = None ->
      updated = smartReminders).
Proof.
  unfold handleReminderAction.
  destruct (find _ smartReminders) as [r0|]; simpl; [|repeat split; reflexivity].
  repeat split.
  - rewrite map_map. apply map_ext. intros x.
    destruct (String.eqb (r_id x) id); [apply updateReminder_id | reflexivity].
  - unfold otherReminders. induction smartReminders as [|x xs IH]; [reflexivity|].
    simpl. destruct (String.eqb (r_id x) id) eqn:Hx; simpl.
    + rewrite updateReminder_id, Hx. simpl. exact IH.
    + rewrite Hx. simpl. f_equal. exact IH.
  - discriminate.
Qed.

Lemma handleReminderAction_frame_witness :
  let r1 := reminderOn "r1" "a" (-10) Active None in
  let r2 := reminderOn "r2" "a" 5 Active None in
  otherReminders "r1" (handleReminderAction (monday 8 0) [] [r1; r2] "r1" act_done)
  = [r2].
Proof.
  intros r1 r2.
  apply (proj1 (proj2 (handleReminderAction_frame (monday 8 0) [] [r1; r2] "r1" act_done))).
Defined.

Lemma handleReminderAction_In now dnds rs id action r' :
  In r' (handleReminderAction now dnds rs id action) ->
  (In r' rs /\ r_id r' <> id)
  \/ exists r b, In r rs /\ r_id r = id /\ r' = updateReminder now dnds b action r.
Proof.
  unfold handleReminderAction.
  destruct (find _ rs) as [r0|] eqn:Hfind.
  - intros (r & <- & Hr)%in_map_iff.
    destruct (String.eqb (r_id r) id) eqn:Hid.
    + right. exists r, (negb (r_isLocked r0)). apply String.eqb_eq in Hid. auto.
    + left. apply String.eqb_neq in Hid. auto.
  - intros Hin. left. split; [exact Hin|].
    apply (find_none _ _ Hfind) in Hin. apply String.eqb_neq in Hin. exact Hin.
Qed.

Lemma resolveReminder_Some now events dnds r a :
  resolveReminder now events dnds r = Some a ->
  exists event,
    find (fun e => String.eqb (ev_id e) (r_eventId r)) events = Some event
    /\ a = mkActive r event (dndShift now dnds (baseTrigger now event r)).1
                            (dndShift now dnds (baseTrigger now event r)).2
    /\ (lt (baseTrigger now event r) (Int now) = true -> r_status r <> Active).
Proof.
  unfold resolveReminder.
  destruct (find _ events) as [event|]; [|discriminate].
  destruct (dndShift now dnds (baseTrigger now event r)) as [t s] eqn:Hshift.
  destruct (lt (baseTrigger now event r) (Int now)) eqn:Hlt;
    destruct (r_status r) eqn:Hst; simpl; try discriminate;
    intros [= <-]; exists event; rewrite Hshift; (split; [reflexivity|]);
    (split; [reflexivity|]); unfold not; intros; congruence.
Qed.

(** X7. A reminder marked done or ignored is off the active list: whatever
    the time, the schedule, the windows and the pause, no entry of the list
    computed afterwards carries its id. *)
Theorem closed_reminder_not_listed
    (now now' : Z) (dndWindows dndWindows' : list DNDWindow)
    (smartReminders : list SmartReminder) (scheduleEvents : list ScheduleEvent)
    (pauseUntil : option num) (id : string) (action : ReminderAction)
    (a : ActiveReminder) :
  closes action = true ->
  In a (activeReminders now'
          (handleReminderAction now dndWindows smartReminders id action)
          scheduleEvents dndWindows' pauseUntil) ->
  r_id (ar_reminder a) <> id.
Proof.
  intros Hclose Hin.
  destruct (pauseInEffect now' pauseUntil) eqn:Hp.
  { unfold activeReminders in Hin. rewrite Hp in Hin. destruct Hin. }
  apply (activeReminders_In _ _ _ _ _ _ Hp) in Hin as (r' & Hr' & Hlisted & Hres).
  apply resolveReminder_Some in Hres as (event & _ & -> & _). simpl.
  apply handleReminderAction_In in Hr' as [[_ Hne] | (r & b & _ & _ & ->)];
    [exact Hne|].
  destruct action; try discriminate Hclose; discriminate Hlisted.
Qed.

Lemma closed_reminder_not_listed_witness :
  let r1 := reminderOn "r1" "a" (-10) Active None in
  let r2 := reminderOn "r2" "a" 5 Active None in
  let event := mkEvent "a" Monday "Standup" "09:00" "09:30" in
  r_id (ar_reminder (mkActive r2 event (Int (monday 9 5)) None)) <> "r1".
Proof.
  intros r1 r2 event.
  apply (closed_reminder_not_listed (monday 8 0) (monday 8 0) [] [] [r1; r2] [event]
           None "r1" act_done (mkActive r2 event (Int (monday 9 5)) None));
    [reflexivity | left; reflexivity].
Defined.




Lemma startOfDay_next (d : Z) : startOfDay (d + msPerDay) = startOfDay d + msPerDay.
Proof.
  unfold startOfDay, msPerDay.
  replace (d + 86400000) with (d + 1 * 86400000) by lia.
  rewrite Z.div_add by lia. lia.
Qed.

Lemma startOfDay_bounds (d : Z) : startOfDay d <= d < startOfDay d + msPerDay.
Proof. unfold startOfDay, msPerDay. Z.div_mod_to_equations. lia. Qed.

(** X9. "Pause until tomorrow" snoozes to 9:00 of the next calendar day,
    in local wall-clock time: the time written is on the day after today, at
    minute 540 of that day, and it is later than now. *)
Theorem pause_until_tomorrow_nine
    (now : Z) (dndWindows : list DNDWindow) (b : bool) (r : SmartReminder) :
  let r' := updateReminder now dndWindows b act_pause r in
  r_status r' = Paused
  /\ r_snoozedUntil r' = Some (Int (tomorrowNine now))
  /\ startOfDay (tomorrowNine now) = startOfDay now + msPerDay
  /\ minuteOfDay (tomorrowNine now) = 540
  /\ now < tomorrowNine now.
Proof.
  simpl. split; [reflexivity|]. split; [reflexivity|].
  pose proof (startOfDay_bounds now) as Hb.
  unfold tomorrowNine. rewrite startOfDay_next.
  unfold minuteOfDay, startOfDay, msPerDay, msPerHour, msPerMinute in *.
  repeat split; try (Z.div_mod_to_equations; lia).
Qed.

(** X10. Toggling the lock flips [isLocked] of the reminder and leaves
    [allowExploration] as its complement; toggling twice brings the lock
    back. *)
Theorem toggle_lock_flips
    (now now' : Z) (dndWindows dndWindows' : list DNDWindow)
    (smartReminders : list SmartReminder) (id : string) (r0 r' : SmartReminder) :
  find (fun r => String.eqb (r_id r) id) smartReminders = Some r0 ->
  let once := handleReminderAction now dndWindows smartReminders id act_toggle_lock in
  let twice := handleReminderAction now' dndWindows' once id act_toggle_lock in
  (In r' once -> r_id r' = id ->
     r_isLocked r' = negb (r_isLocked r0)
     /\ r_allowExploration r' = Some (negb (r_isLocked r')))
  /\ (In r' twice -> r_id r' = id ->
     r_isLocked r' = r_isLocked r0
     /\ r_allowExploration r' = Some (negb (r_isLocked r'))).
Proof.
  intros Hfind once twice.
  assert (Honce : once = map (fun r => if String.eqb (r_id r) id
                     then updateReminder now dndWindows (negb (r_isLocked r0))
                            act_toggle_lock r
                     else r) smartReminders).
  { subst once. unfold handleReminderAction. rewrite Hfind. reflexivity. }
  assert (Hfind' : find (fun r => String.eqb (r_id r) id) once
                   = Some (updateReminder now dndWindows (negb (r_isLocked r0))
                             act_toggle_lock r0)).
  { rewrite Honce, find_map_preserving.
    - rewrite Hfind. simpl. destruct (find_some _ _ Hfind) as [_ ->]. reflexivity.
    - intros x. destruct (String.eqb (r_id x) id) eqn:Hx; [|exact Hx].
      rewrite updateReminder_id. exact Hx. }
  split.
  - intros Hin Hid. rewrite Honce in Hin.
    apply in_map_iff in Hin as (r & <- & _).
    destruct (String.eqb (r_id r) id) eqn:Hr; [simpl; auto|].
    apply String.eqb_neq in Hr. contradiction.
  - intros Hin Hid. subst twice. unfold handleReminderAction in Hin.
    rewrite Hfind' in Hin. simpl in Hin.
    apply in_map_iff in Hin as (r & <- & _).
    destruct (String.eqb (r_id r) id) eqn:Hr.
    + simpl. rewrite negb_involutive. auto.
    + apply String.eqb_neq in Hr. contradiction.
Qed.

Lemma toggle_lock_flips_witness :
  let r := reminderOn "r1" "a" (-10) Active None in
  let r' := updateReminder (monday 8 0) [] true act_toggle_lock r in
  r_isLocked r' = negb (r_isLocked r)
  /\ r_allowExploration r' = Some (negb (r_isLocked r')).
Proof.
  intros r r'.
  apply (proj1 (toggle_lock_flips (monday 8 0) (monday 8 5) [] [] [r] "r1" r r' eq_refl));
    [left; reflexivity | reflexivity].
Defined.

(** X11. Reverting an exploration restores the stored original offset,
    clears the exploratory flag and the stored offset, and makes the reminder
    Active with no snooze; reverting a second time changes nothing more. *)
Theorem revert_exploration_restores
    (now now' : Z) (dndWindows dndWindows' : list DNDWindow)
    (smartReminders : list SmartReminder) (id : string)
    (r : SmartReminder) (original : Z) :
  In r smartReminders ->
  r_id r = id ->
  r_isExploratory r = true ->
  r_originalOffsetMinutes r = Some original ->
  let reverted :=
    handleReminderAction now dndWindows smartReminders id act_revert_exploration in
  (exists r', In r' reverted /\ r_id r' = id
     /\ r_offsetMinutes r' = original /\ r_isExploratory r' = false
     /\ r_originalOffsetMinutes r' = None
     /\ r_status r' = Active /\ r_snoozedUntil r' = None)
  /\ handleReminderAction now' dndWindows' reverted id act_revert_exploration = reverted.
Proof.
  intros Hin Hid Hexp Horig reverted.
  destruct (find (fun r => String.eqb (r_id r) id) smartReminders) as [r0|] eqn:Hfind.
  2:{ exfalso. apply (find_none _ _ Hfind) in Hin.
      apply String.eqb_neq in Hin. contradiction. }
  assert (Hrev : reverted = map (fun r => if String.eqb (r_id r) id
                     then updateReminder now dndWindows (negb (r_isLocked r0))
                            act_revert_exploration r
                     else r) smartReminders).
  { subst reverted. unfold handleReminderAction. rewrite Hfind. reflexivity. }
  split.
  - exists (updateReminder now dndWindows (negb (r_isLocked r0)) act_revert_exploration r).
    split.
    + rewrite Hrev. apply in_map_iff. exists r. split; [|exact Hin].
      apply String.eqb_eq in Hid. rewrite Hid. reflexivity.
    + simpl. rewrite Hexp, Horig. simpl. auto 10.
  - unfold handleReminderAction at 1.
    destruct (find _ reverted) as [r1|]; [|reflexivity].
    rewrite Hrev, map_map. apply map_ext. intros x.
    destruct (String.eqb (r_id x) id) eqn:Hx; [|rewrite Hx; reflexivity].
    rewrite updateReminder_id, Hx. simpl.
    destruct (r_isExploratory x) eqn:Hex, (r_originalOffsetMinutes x) eqn:Hor;
      simpl; rewrite ?Hex, ?Hor; reflexivity.
Qed.

Lemma revert_exploration_restores_witness :
  let r := mkReminder "r1" "a" (-25) "Pack bag" false true Snoozed [10]
             (Some (Int (monday 9 0))) [snoozed] (Some (-10)) None (Some true) in
  let reverted := handleReminderAction (monday 8 0) [] [r] "r1" act_revert_exploration in
  handleReminderAction (monday 8 5) [] reverted "r1" act_revert_exploration = reverted.
Proof.
  intros r reverted.
  apply (revert_exploration_restores (monday 8 0) (monday 8 5) [] [] [r] "r1" r (-10));
    [left; reflexivity | reflexivity | reflexivity | reflexivity].
Defined.

(** ** The active list, further *)

(** X12. Every entry of the active list is backed by the state: no global
    pause is in effect, its reminder is one of the reminders, with status
    Active, Snoozed or Paused, and its anchor is the first anchor of the
    schedule whose id the reminder names (a reminder whose anchor is gone is
    never listed). *)
Theorem activeReminders_sound
    (now : Z) (smartReminders : list SmartReminder) (scheduleEvents : list ScheduleEvent)
    (dndWindows : list DNDWindow) (pauseUntil : option num) (a : ActiveReminder) :
  In a (activeReminders now smartReminders scheduleEvents dndWindows pauseUntil) ->
  pauseInEffect now pauseUntil = false
  /\ In (ar_reminder a) smartReminders
  /\ (r_status (ar_reminder a) = Active \/ r_status (ar_reminder a) = Snoozed
      \/ r_status (ar_reminder a) = Paused)
  /\ find (fun e => String.eqb (ev_id e) (r_eventId (ar_reminder a))) scheduleEvents
     = Some (ar_event a)
  /\ In (ar_event a) scheduleEvents
  /\ ev_id (ar_event a) = r_eventId (ar_reminder a).
Proof.
  intros Hin.
  destruct (pauseInEffect now pauseUntil) eqn:Hp.
  { unfold activeReminders in Hin. rewrite Hp in Hin. destruct Hin. }
  apply (activeReminders_In _ _ _ _ _ _ Hp) in Hin as (r & Hr & Hlisted & Hres).
  apply resolveReminder_Some in Hres as (event & Hev & -> & _). simpl.
  destruct (find_some _ _ Hev) as [Hine Hid]. apply String.eqb_eq in Hid.
  repeat split; try assumption.
  unfold isListed, isSnoozedOrPaused in Hlisted.
  destruct (r_status r); simpl in Hlisted; try discriminate; auto.
Qed.

Lemma activeReminders_sound_witness :
  let event := mkEvent "a" Monday "Standup" "09:00" "09:30" in
  let r := reminderOn "r1" "a" (-10) Active None in
  In (ar_event (mkActive r event (Int (monday 8 50)) None)) [event]
  /\ ev_id event = r_eventId r.
Proof.
  intros event r.
  destruct (activeReminders_sound (monday 8 0) [r] [event] [] None
              (mkActive r event (Int (monday 8 50)) None) (or_introl eq_refl))
    as (_ & _ & _ & _ & H1 & H2).
  split; [exact H1 | exact H2].
Defined.

Lemma dndBounds_Int now w dndStart dndEnd :
  dndBounds now w = Some (dndStart, dndEnd) ->
  exists s e, dndStart = Int s /\ dndEnd = Int e.
Proof.
  unfold dndBounds. destruct (truthy _ && truthy _); [|discriminate].
  destruct (split_numbers (dnd_startTime w)) as [[|sh] [|sm]];
    destruct (split_numbers (dnd_endTime w)) as [[|eh] [|em]];
    simpl; try discriminate.
  destruct (_ <? _); [destruct (_ <? _)|]; intros [= <- <-]; eauto.
Qed.

(** The shift never moves a trigger to an earlier instant, and keeps a valid
    trigger valid. *)
Lemma dndShift_later now dnds (t : Z) :
  exists t', (dndShift now dnds (Int t)).1 = Int t' /\ t <= t'.
Proof.
  unfold dndShift. destruct (find _ dnds) as [w|]; [|exists t; simpl; split; [reflexivity|lia]].
  destruct (dndBounds now w) as [[dndStart dndEnd]|] eqn:Hb;
    [|exists t; simpl; split; [reflexivity|lia]].
  destruct (dndBounds_Int _ _ _ _ Hb) as (s & e & -> & ->).
  simpl. destruct (Z.leb_spec s t), (Z.leb_spec t e); simpl;
    eexists; (split; [reflexivity|lia]).
Qed.

Lemma dndShift_NaN now dnds : (dndShift now dnds NaN).1 = NaN.
Proof.
  unfold dndShift. destruct (find _ dnds) as [w|]; [|reflexivity].
  destruct (dndBounds now w) as [[[|s] dndEnd]|]; reflexivity.
Qed.

(** X13. An Active reminder on the list is never stale: when its trigger
    time is a valid date, it is not earlier than the time the list was
    computed at. *)
Theorem active_entry_not_stale
    (now : Z) (smartReminders : list SmartReminder) (scheduleEvents : list ScheduleEvent)
    (dndWindows : list DNDWindow) (pauseUntil : option num)
    (a : ActiveReminder) (t : Z) :
  In a (activeReminders now smartReminders scheduleEvents dndWindows pauseUntil) ->
  r_status (ar_reminder a) = Active ->
  ar_triggerTime a = Int t ->
  now <= t.
Proof.
  intros Hin Hst Ht.
  destruct (pauseInEffect now pauseUntil) eqn:Hp.
  { unfold activeReminders in Hin. rewrite Hp in Hin. destruct Hin. }
  apply (activeReminders_In _ _ _ _ _ _ Hp) in Hin as (r & Hr & Hlisted & Hres).
  apply resolveReminder_Some in Hres as (event & Hev & -> & Hstale).
  simpl in Hst, Ht.
  destruct (baseTrigger now event r) as [|base] eqn:Hbase.
  - rewrite dndShift_NaN in Ht. discriminate.
  - destruct (dndShift_later now dndWindows base) as (t' & Ht' & Hle).
    rewrite Ht' in Ht. injection Ht as ->.
    destruct (Z.ltb_spec base now) as [Hlt|Hge]; [|lia].
    exfalso. apply Hstale; [|exact Hst]. simpl. lia.
Qed.

Lemma active_entry_not_stale_witness : monday 8 0 <= monday 8 50.
Proof.
  apply (active_entry_not_stale (monday 8 0)
           [reminderOn "r1" "a" (-10) Active None]
           [mkEvent "a" Monday "Standup" "09:00" "09:30"] [] None
           (mkActive (reminderOn "r1" "a" (-10) Active None)
              (mkEvent "a" Monday "Standup" "09:00" "09:30") (Int (monday 8 50)) None)
           (monday 8 50));
    [left; reflexivity | reflexivity | reflexivity].
Defined.

(** X14. No entry of the active list has its trigger inside the window that
    the shift tests against, and the annotation tells exactly what the shift
    did: with today's window placed at [dndStart, dndEnd], no resolved
    trigger is at or after [dndStart] and before [dndEnd]; an entry is
    annotated exactly when the trigger computed for its reminder (anchor
    start plus offset, or [snoozedUntil]) is at or after [dndStart] and at or
    before [dndEnd], its trigger is then [dndEnd], and the trigger of an
    entry without annotation is the computed one. *)
Theorem active_entry_outside_tested_window
    (now : Z) (smartReminders : list SmartReminder) (scheduleEvents : list ScheduleEvent)
    (dndWindows : list DNDWindow) (pauseUntil : option num)
    (a : ActiveReminder) (w : DNDWindow) (dndStart dndEnd : num) :
  In a (activeReminders now smartReminders scheduleEvents dndWindows pauseUntil) ->
  find (fun d => bool_decide (dnd_day d = todayDay now)) dndWindows = Some w ->
  dndBounds now w = Some (dndStart, dndEnd) ->
  let computed := baseTrigger now (ar_event a) (ar_reminder a) in
  ge (ar_triggerTime a) dndStart && lt (ar_triggerTime a) dndEnd = false
  /\ (ar_shiftedReason a = Some "DND-shifted" <->
      ge computed dndStart && le computed dndEnd = true)
  /\ (ar_shiftedReason a = Some "DND-shifted" -> ar_triggerTime a = dndEnd)
  /\ (ar_shiftedReason a = None -> ar_triggerTime a = computed)
  /\ (ar_shiftedReason a = None \/ ar_shiftedReason a = Some "DND-shifted").
Proof.
  intros Hin Hw Hb.
  destruct (pauseInEffect now pauseUntil) eqn:Hp.
  { unfold activeReminders in Hin. rewrite Hp in Hin. destruct Hin. }
  apply (activeReminders_In _ _ _ _ _ _ Hp) in Hin as (r & Hr & Hlisted & Hres).
  apply resolveReminder_Some in Hres as (event & Hev & -> & _). simpl.
  split; [apply (dndShift_outside now dndWindows w dndStart dndEnd _ Hw Hb)|].
  unfold dndShift. rewrite Hw, Hb.
  destruct (ge _ dndStart && le _ dndEnd); simpl.
  - repeat split; auto; discriminate.
  - split; [split; discriminate|]. split; [discriminate|]. split; auto.
Qed.

Lemma active_entry_outside_tested_window_witness :
  let a := mkActive (reminderOn "r1" "a" (-10) Active None)
             (mkEvent "a" Monday "Standup" "09:00" "09:30") (Int (monday 9 0))
             (Some "DND-shifted") in
  ge (ar_triggerTime a) (Int (monday 8 0)) && lt (ar_triggerTime a) (Int (monday 9 0))
  = false
  /\ ge (baseTrigger (monday 7 0) (ar_event a) (ar_reminder a)) (Int (monday 8 0))
     && le (baseTrigger (monday 7 0) (ar_event a) (ar_reminder a)) (Int (monday 9 0))
     = true.
Proof.
  intros a.
  destruct (active_entry_outside_tested_window (monday 7 0)
              [reminderOn "r1" "a" (-10) Active None]
              [mkEvent "a" Monday "Standup" "09:00" "09:30"]
              [mkDND Monday "08:00" "09:00"] None a (mkDND Monday "08:00" "09:00")
              (Int (monday 8 0)) (Int (monday 9 0))
              (or_introl eq_refl) eq_refl eq_refl) as (H1 & H2 & _).
  split; [exact H1 | apply H2; reflexivity].
Defined.

Lemma insert_sorted_ext {A : Type} (cmp cmp' : A -> A -> num) (x : A) (l : list A) :
  (forall y, In y l -> cmp x y = cmp' x y) ->
  insert_sorted cmp x l = insert_sorted cmp' x l.
Proof.
  induction l as [|y l IH]; intros H; [reflexivity|].
  simpl. unfold after. rewrite (H y (or_introl eq_refl)).
  destruct (gt (cmp' x y) (Int 0)); [|reflexivity].
  f_equal. apply IH. intros z Hz. apply H. right. exact Hz.
Qed.

(** Sorting depends on the comparator only through the elements sorted. *)
Lemma sort_ext_In {A : Type} (cmp cmp' : A -> A -> num) (l : list A) :
  (forall a b, In a l -> In b l -> cmp a b = cmp' a b) ->
  sort cmp l = sort cmp' l.
Proof.
  induction l as [|x l IH]; intros H; [reflexivity|].
  simpl. rewrite IH by (intros a b Ha Hb; apply H; right; assumption).
  apply insert_sorted_ext. intros y Hy. apply sort_In in Hy.
  apply H; [left; reflexivity | right; exact Hy].
Qed.

Lemma split_numbers_valid (t : string) :
  validHHMM t = true -> exists h m, split_numbers t = (Int h, Int m).
Proof.
  intros Hv. destruct (timeToMinutes_valid _ Hv) as (k & Hk & _).
  destruct t as [|c t]; [discriminate Hv|].
  unfold timeToMinutes in Hk.
  destruct (split_numbers (String c t)) as [[|h] [|m]]; try discriminate Hk.
  eauto.
Qed.

Lemma baseTrigger_Int now event r :
  validHHMM (ev_startTime event) = true ->
  r_snoozedUntil r <> Some NaN ->
  exists t, baseTrigger now event r = Int t.
Proof.
  intros Hv Hu. unfold baseTrigger.
  destruct (split_numbers_valid _ Hv) as (h & m & ->).
  destruct (r_snoozedUntil r) as [[|u]|]; [congruence| |]; simpl;
    try destruct (isSnoozedOrPaused r); eauto.
Qed.

(** X15. The active list is in ascending order of trigger time: when every
    anchor has a valid start time and no reminder carries an unparsable
    [snoozedUntil], every trigger time on the list is a valid date and each
    entry triggers no later than the entries after it. *)
Theorem activeReminders_ascending
    (now : Z) (smartReminders : list SmartReminder) (scheduleEvents : list ScheduleEvent)
    (dndWindows : list DNDWindow) (pauseUntil : option num) :
  Forall (fun e => validHHMM (ev_startTime e) = true) scheduleEvents ->
  Forall (fun r => r_snoozedUntil r <> Some NaN) smartReminders ->
  let listed := activeReminders now smartReminders scheduleEvents dndWindows pauseUntil in
  Forall (fun a => ar_triggerTime a = Int (triggerKey a)) listed
  /\ StronglySorted (fun a b => triggerKey a <= triggerKey b) listed.
Proof.
  intros Hev Hrs listed.
  assert (Hvalid : Forall (fun a => ar_triggerTime a = Int (triggerKey a)) listed).
  { apply List.Forall_forall. intros a Hin.
    destruct (activeReminders_sound _ _ _ _ _ _ Hin) as (Hp & Hr & _ & _ & He & _).
    apply (activeReminders_In _ _ _ _ _ _ Hp) in Hin as (r & Hr' & _ & Hres).
    apply resolveReminder_Some in Hres as (event & Hfind & -> & _).
    simpl in *.
    rewrite List.Forall_forall in Hev, Hrs.
    destruct (baseTrigger_Int now event r (Hev _ He) (Hrs _ Hr')) as (t & ->).
    destruct (dndShift_later now dndWindows t) as (t' & Ht' & _).
    unfold triggerKey. simpl. rewrite Ht'. reflexivity. }
  split; [exact Hvalid|].
  subst listed. unfold activeReminders in *.
  destruct (pauseInEffect now pauseUntil); [constructor|].
  set (l := omap _ _) in *.
  assert (Hl : Forall (fun a => ar_triggerTime a = Int (triggerKey a)) l).
  { apply List.Forall_forall. intros a Ha. rewrite List.Forall_forall in Hvalid.
    apply Hvalid, sort_In, Ha. }
  rewrite (sort_ext_In byTriggerTime byTriggerKey).
  - apply (sort_ordered triggerKey byTriggerKey). reflexivity.
  - intros a b Ha Hb. rewrite List.Forall_forall in Hl.
    unfold byTriggerTime, byTriggerKey. rewrite (Hl a Ha), (Hl b Hb). reflexivity.
Qed.

Lemma activeReminders_ascending_witness :
  let event := mkEvent "a" Monday "Standup" "09:00" "09:30" in
  let r1 := reminderOn "r1" "a" 5 Active None in
  let r2 := reminderOn "r2" "a" (-10) Active None in
  StronglySorted (fun a b => triggerKey a <= triggerKey b)
    (activeReminders (monday 8 0) [r1; r2] [event] [] None).
Proof.
  intros event r1 r2.
  apply (activeReminders_ascending (monday 8 0) [r1; r2] [event] [] None).
  - repeat constructor.
  - repeat constructor; discriminate.
Defined.

(** ** The completion history, further *)

(** X16. What [addRecordToHistory] saves is read back as it is: the history
    it returns has a list under each of the five tags, so that
    [getCompletionHistory] on the saved value returns the same history. *)
Theorem saved_history_read_back (stored : Stored) (now : Z) (record : CompletionData) :
  let history := addRecordToHistory stored now record in
  (forall tag, is_Some (history !! tag))
  /\ getCompletionHistory (Parsed history) = history.
Proof.
  intros history.
  assert (Hall : forall tag, is_Some (history !! tag)).
  { intros tag. subst history. unfold addRecordToHistory.
    case_bool_decide; rewrite lookup_insert; case_decide; eauto;
      rewrite getCompletionHistory_lookup; eauto. }
  split; [exact Hall|].
  apply map_eq. intros tag. rewrite getCompletionHistory_lookup.
  unfold recordsOf. destruct (Hall tag) as [l ->]. reflexivity.
Qed.

(** X17. An append changes its own category only: the records under every
    other tag are those of the store. *)
Theorem addRecordToHistory_other_tags
    (stored : Stored) (now : Z) (record : CompletionData) (tag : EnergyTag) :
  tag <> energyTag record ->
  recordsOf (addRecordToHistory stored now record) tag
  = recordsOf (getCompletionHistory stored) tag.
Proof.
  intros Hne. unfold addRecordToHistory, recordsOf.
  case_bool_decide; rewrite lookup_insert_ne by congruence; reflexivity.
Qed.

Lemma addRecordToHistory_other_tags_witness :
  recordsOf (addRecordToHistory fullStore 7 (mkData 45 60 Creative 500000 3 1 Typical))
    Admin = recordsOf (getCompletionHistory fullStore) Admin.
Proof.
  apply (addRecordToHistory_other_tags fullStore 7
           (mkData 45 60 Creative 500000 3 1 Typical) Admin).
  discriminate.
Defined.

Lemma addRecordToHistory_withinCap (stored : Stored) (now : Z) (record : CompletionData) :
  withinCap stored -> withinCap (Parsed (addRecordToHistory stored now record)).
Proof.
  intros Hcap tag. rewrite getCompletionHistory_records.
  destruct (decide (tag = energyTag record)) as [->|Hne].
  - unfold addRecordToHistory, recordsOf at 1.
    case_bool_decide as Hlen; rewrite lookup_insert_eq; simpl;
      unfold MAX_RECORDS_PER_TAG in *.
    + rewrite length_take. lia.
    + rewrite length_app in *. simpl in *. lia.
  - rewrite addRecordToHistory_other_tags by exact Hne. apply Hcap.
Qed.

(** X18. The retention cap is an invariant of the store: starting from a
    store with at most 100 records in every category (an empty or unreadable
    store in particular), any run of appends leaves at most 100 records in
    every category. *)
Theorem history_cap_invariant (stored : Stored) (appends : list (Z * CompletionData)) :
  withinCap stored -> withinCap (appendAll stored appends).
Proof.
  revert stored. induction appends as [|[now record] appends IH]; intros stored Hcap.
  - exact Hcap.
  - simpl. apply IH, addRecordToHistory_withinCap, Hcap.
Qed.

Lemma history_cap_invariant_witness :
  withinCap (appendAll fullStore
               [(7, mkData 45 60 Creative 500000 3 1 Typical);
                (8, mkData 20 30 Admin 600000 2 1 Easier)]).
Proof.
  apply (history_cap_invariant fullStore).
  intros tag. destruct tag; vm_compute; lia.
Defined.

(** ** Habit streaks *)

Lemma Math_round_Z (n : Z) : Math_round (inject_Z n) = n.
Proof.
  unfold Math_round, Qfloor, Qplus, inject_Z. simpl.
  rewrite Z.mul_1_r. Z.div_mod_to_equations. lia.
Qed.

Lemma startOfDay_dayOf (d : Z) : startOfDay d = dayOf d * msPerDay.
Proof. reflexivity. Qed.

Lemma areDatesSameDay_dayOf (d1 d2 : Z) :
  areDatesSameDay d1 d2 = (dayOf d1 =? dayOf d2).
Proof.
  unfold areDatesSameDay. rewrite !startOfDay_dayOf. unfold msPerDay.
  destruct (Z.eqb_spec (dayOf d1) (dayOf d2)) as [->|Hne].
  - apply Z.eqb_refl.
  - apply Z.eqb_neq. lia.
Qed.

Lemma areDatesConsecutive_dayOf (d1 d2 : Z) :
  areDatesConsecutive d1 d2 = (Z.abs (dayOf d1 - dayOf d2) =? 1).
Proof.
  unfold areDatesConsecutive. cbv zeta. f_equal.
  rewrite <- (Math_round_Z (Z.abs (dayOf d1 - dayOf d2))).
  apply Math_round_Qeq. unfold Math_abs.
  rewrite !startOfDay_dayOf. unfold msPerDay.
  replace (dayOf d1 * 86400000 - dayOf d2 * 86400000)
    with ((dayOf d1 - dayOf d2) * 86400000) by lia.
  change (24 * 60 * 60 * 1000) with 86400000.
  rewrite inject_Z_mult.
  assert (H : (inject_Z (dayOf d1 - dayOf d2) * inject_Z 86400000 / inject_Z 86400000
               == inject_Z (dayOf d1 - dayOf d2))%Q) by (field; discriminate).
  rewrite H. unfold Qabs, inject_Z. reflexivity.
Qed.

Lemma last_pushed (l : list Z) (now : Z) :
  last (if bool_decide (100 < length (l ++ [now]))%nat
        then drop 1 (l ++ [now]) else l ++ [now]) = Some now.
Proof.
  case_bool_decide as Hlen; [|apply last_snoc].
  destruct l as [|x l]; [simpl in Hlen; lia|].
  simpl. rewrite drop_0. destruct l; [simpl in Hlen; lia|]. apply last_snoc.
Qed.

(** X21. A habit counts once a day: after a completion has gone through
    [recordHabitCompletion], a further completion of the same habit on the
    same calendar day reports the same streak, never a new longest one, and
    leaves the store untouched. *)
Theorem same_day_completion_ignored
    (stored : StoredStats) (first again : Z) (habitId : string) :
  dayOf first = dayOf again ->
  let '(outcome, stored') := recordHabitCompletion stored first habitId in
  recordHabitCompletion stored' again habitId
  = (mkOutcome (newStreak outcome) false, stored').
Proof.
  intros Hday. unfold recordHabitCompletion at 1. cbv zeta.
  set (st := default (mkStats [] 0 0) (getHabitStats stored !! habitId)).
  destruct (match last (completionTimestamps st) with
            | Some lastDate => areDatesSameDay first lastDate
            | None => false
            end) eqn:Hsame.
  - unfold recordHabitCompletion. cbv zeta. fold st.
    destruct (last (completionTimestamps st)) as [lastDate|]; [|discriminate].
    rewrite areDatesSameDay_dayOf in *. rewrite <- Hday, Hsame. reflexivity.
  - unfold recordHabitCompletion. cbv zeta. simpl getHabitStats.
    rewrite lookup_insert_eq. simpl.
    rewrite last_pushed, areDatesSameDay_dayOf, Hday, Z.eqb_refl. reflexivity.
Qed.

Lemma same_day_completion_ignored_witness :
  recordHabitCompletion (recordHabitCompletion NoStats (monday 8 0) "habit-hydrate").2
    (monday 17 30) "habit-hydrate"
  = (mkOutcome 1 false,
     (recordHabitCompletion NoStats (monday 8 0) "habit-hydrate").2).
Proof.
  apply (same_day_completion_ignored NoStats (monday 8 0) (monday 17 30) "habit-hydrate").
  reflexivity.
Defined.

(** What a completion on a new day stores for the habit. *)
Lemma recordHabitCompletion_recorded stored now habitId st lastDate :
  getHabitStats stored !! habitId = Some st ->
  last (completionTimestamps st) = Some lastDate ->
  dayOf now <> dayOf lastDate ->
  exists timestamps,
    let current :=
      if Z.abs (dayOf now - dayOf lastDate) =? 1 then currentStreak st + 1 else 1 in
    recordHabitCompletion stored now habitId
    = (mkOutcome current (longestStreak st <? current),
       ParsedStats (<[habitId := mkStats timestamps current
                                   (Z.max (longestStreak st) current)]>
                      (getHabitStats stored)))
    /\ last timestamps = Some now
    /\ (length timestamps <= 100 <-> length (completionTimestamps st) <= 100)%nat.
Proof.
  intros Hst Hlast Hday.
  exists (if bool_decide (100 < length (completionTimestamps st ++ [now]))%nat
          then drop 1 (completionTimestamps st ++ [now])
          else completionTimestamps st ++ [now]).
  cbv zeta. split; [|split].
  - unfold recordHabitCompletion. cbv zeta. rewrite Hst. simpl. rewrite Hlast.
    rewrite areDatesSameDay_dayOf, areDatesConsecutive_dayOf.
    destruct (Z.eqb_spec (dayOf now) (dayOf lastDate)); [contradiction|].
    repeat f_equal.
    destruct (Z.ltb_spec (longestStreak st)
                (if Z.abs (dayOf now - dayOf lastDate) =? 1
                 then currentStreak st + 1 else 1)); lia.
  - apply last_pushed.
  - case_bool_decide as Hlen; rewrite ?length_drop, !length_app in *; simpl in *; lia.
Qed.

(** X22. How a streak moves: a completion one calendar day away from the
    habit's last completion adds one to the current streak, a completion two
    or more days away starts again at one; the longest streak becomes the
    larger of the old longest and the new current streak, and a new longest
    is reported exactly when the current streak exceeds the old longest. *)
Theorem streak_step
    (stored : StoredStats) (now : Z) (habitId : string)
    (st : HabitStats) (lastDate : Z) :
  getHabitStats stored !! habitId = Some st ->
  last (completionTimestamps st) = Some lastDate ->
  dayOf now <> dayOf lastDate ->
  let outcome := (recordHabitCompletion stored now habitId).1 in
  let stored' := (recordHabitCompletion stored now habitId).2 in
  (Z.abs (dayOf now - dayOf lastDate) = 1 -> newStreak outcome = currentStreak st + 1)
  /\ (Z.abs (dayOf now - dayOf lastDate) <> 1 -> newStreak outcome = 1)
  /\ isNewLongest outcome = (longestStreak st <? newStreak outcome)
  /\ exists st', getHabitStats stored' !! habitId = Some st'
       /\ currentStreak st' = newStreak outcome
       /\ longestStreak st' = Z.max (longestStreak st) (newStreak outcome)
       /\ last (completionTimestamps st') = Some now.
Proof.
  intros Hst Hlast Hday.
  destruct (recordHabitCompletion_recorded _ _ _ _ _ Hst Hlast Hday)
    as (timestamps & Hrec & Hl & _).
  cbv zeta in Hrec. rewrite Hrec. simpl.
  split; [|split; [|split]].
  - intros ->. reflexivity.
  - intros Hne. apply Z.eqb_neq in Hne. rewrite Hne. reflexivity.
  - reflexivity.
  - eexists. rewrite lookup_insert_eq. split; [reflexivity|]. simpl. auto.
Qed.

Lemma streak_step_witness :
  let stored := (recordHabitCompletion NoStats (monday 8 0) "habit-hydrate").2 in
  newStreak (recordHabitCompletion stored (monday 32 0) "habit-hydrate").1 = 1 + 1.
Proof.
  intros stored.
  destruct (streak_step stored (monday 32 0) "habit-hydrate"
              (mkStats [monday 8 0] 1 1) (monday 8 0) eq_refl eq_refl
              ltac:(vm_compute; discriminate)) as (H & _).
  apply H. reflexivity.
Defined.

Lemma recordHabitCompletion_statsStoreOK stored now habitId :
  statsStoreOK stored ->
  statsStoreOK (recordHabitCompletion stored now habitId).2
  /\ exists st, getHabitStats (recordHabitCompletion stored now habitId).2 !! habitId
                = Some st
       /\ currentStreak st = newStreak (recordHabitCompletion stored now habitId).1.
Proof.
  intros Hok.
  destruct (getHabitStats stored !! habitId) as [st|] eqn:Hst.
  - destruct (Hok _ _ Hst) as ((Hc1 & Hc2) & Hl1 & Hl2).
    destruct (last (completionTimestamps st)) as [lastDate|] eqn:Hlast.
    2:{ apply last_None in Hlast. rewrite Hlast in Hl1. simpl in Hl1. lia. }
    destruct (Z.eq_dec (dayOf now) (dayOf lastDate)) as [Heq|Hne].
    + unfold recordHabitCompletion. cbv zeta. rewrite Hst. simpl. rewrite Hlast.
      rewrite areDatesSameDay_dayOf, Heq, Z.eqb_refl. simpl.
      split; [exact Hok|]. exists st. auto.
    + destruct (recordHabitCompletion_recorded _ _ _ _ _ Hst Hlast Hne)
        as (timestamps & Hrec & Hl & Hlen).
      cbv zeta in Hrec. rewrite Hrec. simpl. split.
      * intros id' s'. simpl. rewrite lookup_insert. case_decide as Hid.
        -- intros [= <-]. unfold statsOK. simpl.
           assert (0 < length timestamps)%nat
             by (destruct timestamps; [discriminate Hl | simpl; lia]).
           destruct (Z.abs _ =? 1); lia.
        -- apply Hok.
      * eexists. simpl. rewrite lookup_insert_eq. split; reflexivity.
  - unfold recordHabitCompletion. cbv zeta. rewrite Hst. simpl. split.
    + intros id' s'. simpl. rewrite lookup_insert. case_decide as Hid.
      * intros [= <-]. unfold statsOK. simpl. lia.
      * apply Hok.
    + eexists. simpl. rewrite lookup_insert_eq. split; reflexivity.
Qed.

(** X23. The streak bookkeeping keeps its invariants: from a store in which
    every habit has a current streak of at least one, a longest streak no
    shorter than the current one and between 1 and 100 timestamps (the empty
    store in particular), any run of completions leads to such a store, and
    every further completion reports a streak of at least one that is the
    habit's stored current streak, bounded by its longest streak. *)
Theorem streak_invariants
    (stored : StoredStats) (completions : list (Z * string)) (now : Z) (habitId : string) :
  statsStoreOK stored ->
  let reached := recordAll stored completions in
  let outcome := (recordHabitCompletion reached now habitId).1 in
  let stored' := (recordHabitCompletion reached now habitId).2 in
  statsStoreOK reached
  /\ statsStoreOK stored'
  /\ exists st, getHabitStats stored' !! habitId = Some st
       /\ newStreak outcome = currentStreak st
       /\ 1 <= newStreak outcome <= longestStreak st
       /\ (length (completionTimestamps st) <= 100)%nat.
Proof.
  intros Hok reached outcome stored'.
  assert (Hrun : forall l s, statsStoreOK s -> statsStoreOK (recordAll s l)).
  { induction l as [|[t id] l IH]; intros s Hs; [exact Hs|].
    simpl. apply IH, recordHabitCompletion_statsStoreOK, Hs. }
  assert (Hreached : statsStoreOK reached) by (apply Hrun, Hok).
  destruct (recordHabitCompletion_statsStoreOK reached now habitId Hreached)
    as (Hok' & st & Hst & Hcur).
  split; [exact Hreached|]. split; [exact Hok'|].
  exists st. split; [exact Hst|]. split; [symmetry; exact Hcur|].
  destruct (Hok' _ _ Hst) as ((H1 & H2) & _ & H3).
  subst outcome. rewrite <- Hcur. repeat split; assumption.
Qed.

Lemma streak_invariants_witness :
  statsStoreOK (recordAll NoStats [(monday 8 0, "habit-hydrate");
                                   (monday 32 0, "habit-hydrate");
                                   (monday 33 0, "habit-tidy-space")]).
Proof.
  apply (streak_invariants NoStats [(monday 8 0, "habit-hydrate");
                                    (monday 32 0, "habit-hydrate");
                                    (monday 33 0, "habit-tidy-space")]
           (monday 80 0) "habit-hydrate").
  intros id s. simpl. rewrite lookup_empty. discriminate.
Defined.

Lemma daily_run (habitId : string) (rest : list Z) :
  forall (first : Z) (stored : StoredStats) (st : HabitStats),
  getHabitStats stored !! habitId = Some st ->
  last (completionTimestamps st) = Some first ->
  currentStreak st = longestStreak st ->
  onConsecutiveDays first rest ->
  exists st',
    getHabitStats (recordAll stored (map (fun t => (t, habitId)) rest)) !! habitId
    = Some st'
    /\ currentStreak st' = currentStreak st + Z.of_nat (length rest)
    /\ longestStreak st' = currentStreak st'.
Proof.
  induction rest as [|next rest IH]; intros first stored st Hst Hlast Heq Hdays.
  - exists st. simpl. rewrite Z.add_0_r. auto.
  - destruct Hdays as [Hnext Hdays]. simpl.
    assert (Hne : dayOf next <> dayOf first) by lia.
    destruct (recordHabitCompletion_recorded _ _ _ _ _ Hst Hlast Hne)
      as (timestamps & Hrec & Hl & _).
    cbv zeta in Hrec. rewrite Hrec. simpl.
    replace (Z.abs (dayOf next - dayOf first) =? 1) with true
      by (symmetry; apply Z.eqb_eq; lia).
    match goal with
    | |- context [recordAll (ParsedStats (<[habitId := ?x]> ?m)) _] =>
        destruct (IH next (ParsedStats (<[habitId := x]> m)) x
                    ltac:(simpl; apply lookup_insert_eq) Hl ltac:(simpl; lia) Hdays)
          as (st' & Hst' & Hcur & Hlong)
    end.
    exists st'. split; [exact Hst'|]. simpl in Hcur. split; [lia | exact Hlong].
Qed.

(** X24. A habit completed on each of [n] consecutive calendar days, at any
    time of the day, starting from a store that does not know the habit,
    ends with a current streak of [n], which is also its longest streak. *)
Theorem daily_completions_build_streak
    (stored : StoredStats) (habitId : string) (first : Z) (rest : list Z) :
  getHabitStats stored !! habitId = None ->
  onConsecutiveDays first rest ->
  exists st,
    getHabitStats (recordAll stored (map (fun t => (t, habitId)) (first :: rest)))
      !! habitId = Some st
    /\ currentStreak st = Z.of_nat (length (first :: rest))
    /\ longestStreak st = Z.of_nat (length (first :: rest)).
Proof.
  intros Hnone Hdays. simpl map. simpl recordAll.
  assert (Hfirst : recordHabitCompletion stored first habitId
                   = (mkOutcome 1 true,
                      ParsedStats (<[habitId := mkStats [first] 1 1]> (getHabitStats stored)))).
  { unfold recordHabitCompletion. cbv zeta. rewrite Hnone. reflexivity. }
  change (recordAll stored ((first, habitId) :: map (fun t => (t, habitId)) rest))
    with (recordAll (recordHabitCompletion stored first habitId).2
            (map (fun t => (t, habitId)) rest)).
  rewrite Hfirst. simpl snd.
  destruct (daily_run habitId rest first
              (ParsedStats (<[habitId := mkStats [first] 1 1]> (getHabitStats stored)))
              (mkStats [first] 1 1)
              ltac:(simpl; apply lookup_insert_eq) eq_refl eq_refl Hdays)
    as (st & Hst & Hcur & Hlong).
  exists st. split; [exact Hst|]. simpl in Hcur.
  rewrite Hlong, Hcur. simpl length. lia.
Qed.

Lemma daily_completions_build_streak_witness :
  exists st,
    getHabitStats (recordAll NoStats
                     (map (fun t => (t, "habit-hydrate"))
                        [monday 8 0; monday 31 15; monday 70 0]))
      !! "habit-hydrate" = Some st
    /\ currentStreak st = 3 /\ longestStreak st = 3.
Proof.
  apply (daily_completions_build_streak NoStats "habit-hydrate" (monday 8 0)
           [monday 31 15; monday 70 0]).
  - reflexivity.
  - simpl. split; [reflexivity|]. split; [reflexivity | exact I].
Defined.

(** ** Habit suggestions *)

Lemma random_index_in_range {A : Type} (l : list A) (random : Q) :
  l <> [] -> (0 <= random)%Q -> (random < 1)%Q ->
  exists x,
    (if 0 <=? Qfloor (random * inject_Z (Z.of_nat (length l)))
     then l !! Z.to_nat (Qfloor (random * inject_Z (Z.of_nat (length l))))
     else None) = Some x
    /\ In x l.
Proof.
  intros Hne H0 H1.
  set (n := Z.of_nat (length l)).
  assert (Hn : 0 < n) by (subst n; destruct l; [contradiction | simpl; lia]).
  set (i := Qfloor (random * inject_Z n)).
  assert (Hi0 : 0 <= i).
  { subst i. rewrite <- (Qfloor_Z 0). apply Qfloor_resp_le.
    apply Qmult_le_0_compat; [exact H0|].
    change (inject_Z 0 <= inject_Z n)%Q. rewrite <- Zle_Qle. lia. }
  assert (Hi1 : i < n).
  { rewrite Zlt_Qlt. eapply Qle_lt_trans; [apply Qfloor_le|].
    assert (Hlt : (random * inject_Z n < 1 * inject_Z n)%Q).
    { apply Qmult_lt_compat_r; [|exact H1].
      change (inject_Z 0 < inject_Z n)%Q. rewrite <- Zlt_Qlt. exact Hn. }
    rewrite Qmult_1_l in Hlt. exact Hlt. }
  destruct (Z.leb_spec 0 i); [|lia].
  destruct (l !! Z.to_nat i) as [x|] eqn:Hx.
  - exists x. split; [reflexivity|].
    apply list_elem_of_In, list_elem_of_lookup. eauto.
  - apply lookup_ge_None in Hx. subst n. lia.
Qed.

Lemma getHabitSuggestionFrom_fitting database last random tag (h0 : MicroHabit) :
  (0 <= random)%Q -> (random < 1)%Q ->
  In h0 database ->
  isNotLastSuggested last h0 = true ->
  fitsContext tag h0 = true ->
  exists h,
    getHabitSuggestionFrom database last random tag = (Some h, Some (h_id h))
    /\ In h database
    /\ isNotLastSuggested last h = true
    /\ fitsContext tag h = true.
Proof.
  intros H0 H1 Hin Hlast Hfit. unfold getHabitSuggestionFrom.
  set (p := fun habit => isNotLastSuggested last habit
                         && (hasNoContext habit || matchesContext tag habit)).
  assert (Hne : List.filter p database <> []).
  { intros Hnil. assert (Hf : In h0 (List.filter p database)).
    { apply filter_In. split; [exact Hin|]. unfold p. rewrite Hlast. exact Hfit. }
    rewrite Hnil in Hf. destruct Hf. }
  cbv zeta.
  destruct (List.filter p database) as [|y ys] eqn:Hf; [contradiction|].
  destruct (random_index_in_range (y :: ys) random ltac:(discriminate) H0 H1)
    as (h & Hpick & Hh).
  rewrite Hpick. exists h. split; [reflexivity|].
  rewrite <- Hf in Hh. apply filter_In in Hh as [Hdb Hp].
  unfold p in Hp. apply andb_true_iff in Hp as [Hp1 Hp2]. auto.
Qed.

(** X25. A habit suggestion is never missing, never the one suggested just
    before, and always in context: for every completed energy tag, every
    previous suggestion and every value of [Math.random()] in [0, 1),
    [getHabitSuggestion] returns a habit of the database that differs from
    the last suggested one and that either has no context or lists the tag,
    and it remembers that habit as the last suggested. *)
Theorem getHabitSuggestion_fits_and_differs
    (lastSuggestedHabitId : option string) (random : Q) (completedEnergyTag : EnergyTag) :
  (0 <= random)%Q ->
  (random < 1)%Q ->
  exists habit,
    getHabitSuggestion lastSuggestedHabitId random completedEnergyTag
    = (Some habit, Some (h_id habit))
    /\ In habit habitDatabase
    /\ Some (h_id habit) <> lastSuggestedHabitId
    /\ fitsContext completedEnergyTag habit = true.
Proof.
  intros H0 H1.
  set (hydrate := mkHabit "habit-hydrate" "Sip of Water"
    "Take a moment to hydrate. Proper hydration is key for focus and energy."
    Physical 1 Low None).
  set (gratitude := mkHabit "habit-gratitude" "One Small Win"
    "Take 30 seconds to acknowledge one small thing you did well in that last chunk."
    Cognitive 1 Low None).
  assert (Hex : exists h0, In h0 habitDatabase
                  /\ isNotLastSuggested lastSuggestedHabitId h0 = true
                  /\ fitsContext completedEnergyTag h0 = true).
  { destruct (isNotLastSuggested lastSuggestedHabitId hydrate) eqn:Hh.
    - exists hydrate. split; [|split; [exact Hh | reflexivity]].
      unfold habitDatabase. right. left. reflexivity.
    - exists gratitude. split; [|split; [|reflexivity]].
      + unfold habitDatabase. do 4 right. left. reflexivity.
      + unfold isNotLastSuggested in *.
        destruct lastSuggestedHabitId as [last|]; [|discriminate].
        apply negb_false_iff, String.eqb_eq in Hh. simpl in Hh. subst last.
        reflexivity. }
  destruct Hex as (h0 & Hin & Hlast & Hfit).
  destruct (getHabitSuggestionFrom_fitting habitDatabase lastSuggestedHabitId random
              completedEnergyTag h0 H0 H1 Hin Hlast Hfit) as (h & Heq & Hdb & Hl & Hf).
  exists h. split; [exact Heq|]. split; [exact Hdb|]. split; [|exact Hf].
  unfold isNotLastSuggested in Hl.
  destruct lastSuggestedHabitId as [last|]; [|discriminate].
  apply negb_true_iff, String.eqb_neq in Hl. congruence.
Qed.

Lemma getHabitSuggestion_fits_and_differs_witness :
  exists habit,
    getHabitSuggestion (Some "habit-hydrate") (3 # 4) Admin = (Some habit, Some (h_id habit))
    /\ In habit habitDatabase
    /\ Some (h_id habit) <> Some "habit-hydrate"
    /\ fitsContext Admin habit = true.
Proof.
  apply (getHabitSuggestion_fits_and_differs (Some "habit-hydrate") (3 # 4) Admin);
    [discriminate | reflexivity].
Defined.

(** ** DND settings and onboarding blocks *)

Lemma handleDndChange_cons (w : DNDWindow) (ws : list DNDWindow) day part value :
  handleDndChange (w :: ws) day part value =
  if decide (dnd_day w = day) then setPart w part value :: ws
  else w :: handleDndChange ws day part value.
Proof.
  unfold handleDndChange. cbn. case_decide; [reflexivity|].
  destruct (list_find _ ws) as [[i x]|]; reflexivity.
Qed.

(** X26. Editing the DND time of a day writes the first window of that day
    and no other: the list keeps its length, the first window of the day
    holds the new value in the edited part and is otherwise as before, and
    every other position of the list, a later window of the same day
    included, is unchanged; so the window found for any other day is the one
    found before, and a day without a window is not given one. *)
Theorem handleDndChange_lookup
    (dndWindows : list DNDWindow) (day day' : Day) (part : DndPart) (value : string) :
  let changed := handleDndChange dndWindows day part value in
  let isFirst (i : nat) (w : DNDWindow) :=
    dndWindows !! i = Some w /\ dnd_day w = day
    /\ forall j w', (j < i)%nat -> dndWindows !! j = Some w' -> dnd_day w' <> day in
  length changed = length dndWindows
  /\ (forall i w, isFirst i w ->
        changed !! i = Some (setPart w part value)
        /\ forall j, j <> i -> changed !! j = dndWindows !! j)
  /\ (forall w,
        dnd_day (setPart w part value) = dnd_day w
        /\ match part with
           | part_startTime =>
               dnd_startTime (setPart w part value) = value
               /\ dnd_endTime (setPart w part value) = dnd_endTime w
           | part_endTime =>
               dnd_endTime (setPart w part value) = value
               /\ dnd_startTime (setPart w part value) = dnd_startTime w
           end)
  /\ find (fun w => bool_decide (dnd_day w = day')) changed
      = (if decide (day' = day)
         then (fun w => setPart w part value)
                <$> find (fun w => bool_decide (dnd_day w = day)) dndWindows
         else find (fun w => bool_decide (dnd_day w = day')) dndWindows)
  /\ map dnd_day changed = map dnd_day dndWindows
  /\ (find (fun w => bool_decide (dnd_day w = day)) dndWindows = None ->
      changed = dndWindows).
Proof.
  cbv zeta.
  assert (Hfind : find (fun w => bool_decide (dnd_day w = day'))
                    (handleDndChange dndWindows day part value)
      = (if decide (day' = day)
         then (fun w => setPart w part value)
                <$> find (fun w => bool_decide (dnd_day w = day)) dndWindows
         else find (fun w => bool_decide (dnd_day w = day')) dndWindows)
      /\ map dnd_day (handleDndChange dndWindows day part value) = map dnd_day dndWindows
      /\ (find (fun w => bool_decide (dnd_day w = day)) dndWindows = None ->
          handleDndChange dndWindows day part value = dndWindows)).
  { induction dndWindows as [|w ws (IH1 & IH2 & IH3)].
    - simpl. repeat split; try reflexivity. case_decide; reflexivity.
    - rewrite handleDndChange_cons. destruct (decide (dnd_day w = day)) as [Hw|Hw].
      + split; [|split].
        * subst day. destruct part; simpl;
            (case_decide as Hd;
             [subst day'; rewrite !bool_decide_eq_true_2 by reflexivity; reflexivity|]);
            rewrite !(bool_decide_eq_false_2 (dnd_day w = day')) by congruence;
            reflexivity.
        * destruct part; reflexivity.
        * simpl. rewrite bool_decide_eq_true_2 by exact Hw. discriminate.
      + split; [|split].
        * simpl. destruct (bool_decide (dnd_day w = day')) eqn:Hd'.
          -- apply bool_decide_eq_true in Hd'. case_decide as Hd; [congruence|reflexivity].
          -- rewrite IH1. case_decide; [|reflexivity].
             rewrite bool_decide_eq_false_2 by exact Hw. reflexivity.
        * simpl. f_equal. exact IH2.
        * simpl. rewrite bool_decide_eq_false_2 by exact Hw. intros Hnone.
          f_equal. apply IH3, Hnone. }
  destruct Hfind as (H1 & H2 & H3).
  split; [|split; [|split; [intros w; destruct part; simpl; auto | auto]]].
  - rewrite <- (length_map dnd_day), H2, length_map. reflexivity.
  - clear H1 H2 H3. induction dndWindows as [|w0 ws IH]; intros i w (Hi & Hday & Hfirst).
    + destruct i; discriminate.
    + rewrite handleDndChange_cons. destruct i as [|i].
      * injection Hi as ->. rewrite decide_True by exact Hday.
        split; [reflexivity|]. intros [|j] Hj; [congruence | reflexivity].
      * assert (Hw0 : dnd_day w0 <> day)
          by (apply (Hfirst 0%nat w0); [lia | reflexivity]).
        rewrite decide_False by exact Hw0.
        destruct (IH i w) as [Hat Hother].
        { split; [exact Hi|]. split; [exact Hday|].
          intros j w' Hj Hw'. apply (Hfirst (S j) w'); [lia | exact Hw']. }
        split; [exact Hat|]. intros [|j] Hj; [reflexivity|].
        simpl. apply Hother. congruence.
Qed.

Lemma handleDndChange_lookup_witness :
  let dndWindows := [mkDND Monday "23:00" "07:00"; mkDND Tuesday "22:00" "06:00";
                     mkDND Tuesday "21:00" "05:00"] in
  handleDndChange dndWindows Tuesday part_endTime "06:30" !! 1%nat
    = Some (mkDND Tuesday "22:00" "06:30")
  /\ handleDndChange dndWindows Tuesday part_endTime "06:30" !! 2%nat
     = Some (mkDND Tuesday "21:00" "05:00")
  /\ handleDndChange [mkDND Monday "23:00" "07:00"] Tuesday part_endTime "06:00"
     = [mkDND Monday "23:00" "07:00"].
Proof.
  intros dndWindows.
  pose proof (handleDndChange_lookup dndWindows Tuesday Monday part_endTime "06:30")
    as (_ & Hfirst & _).
  destruct (Hfirst 1%nat (mkDND Tuesday "22:00" "06:00")) as [Hat Hother].
  { split; [reflexivity|]. split; [reflexivity|].
    intros [|j] w' Hj Hw'; [injection Hw' as <-; discriminate | lia]. }
  split; [exact Hat|]. split; [rewrite Hother by lia; reflexivity|].
  apply (proj2 (proj2 (proj2 (proj2 (proj2
           (handleDndChange_lookup [mkDND Monday "23:00" "07:00"]
              Tuesday Monday part_endTime "06:00")))))).
  reflexivity.
Defined.

(** X27. "Apply to all" leaves exactly one window for each of the seven
    days, in week order, all with the same times: those of the first window
    for Monday when there is one, else those of the first window of the
    list, else 23:00-07:00. *)
Theorem handleApplyToAll_every_day (dndWindows : list DNDWindow) (day : Day) :
  let applied := handleApplyToAll dndWindows in
  let monday := find (fun w => bool_decide (dnd_day w = Monday)) dndWindows in
  find (fun w => bool_decide (dnd_day w = day)) applied
    = Some (mkDND day (representativeTimes dndWindows).1 (representativeTimes dndWindows).2)
  /\ map dnd_day applied = DAYS_OF_WEEK
  /\ (forall w, monday = Some w ->
        representativeTimes dndWindows = (dnd_startTime w, dnd_endTime w))
  /\ (forall w rest, monday = None -> dndWindows = w :: rest ->
        representativeTimes dndWindows = (dnd_startTime w, dnd_endTime w))
  /\ (dndWindows = [] -> representativeTimes dndWindows = ("23:00", "07:00")).
Proof.
  cbv zeta. unfold handleApplyToAll. cbv zeta.
  destruct (representativeTimes dndWindows) as [s e] eqn:Hrep. simpl fst. simpl snd.
  split; [destruct day; reflexivity|]. split; [reflexivity|]. split; [|split].
  - intros w Hw. unfold representativeTimes in Hrep. rewrite Hw in Hrep. congruence.
  - intros w rest Hnone ->. unfold representativeTimes in Hrep.
    rewrite Hnone in Hrep. simpl in Hrep. congruence.
  - intros ->. symmetry. exact Hrep.
Qed.

Lemma handleApplyToAll_every_day_witness :
  find (fun w => bool_decide (dnd_day w = Sunday))
       (handleApplyToAll [mkDND Tuesday "21:00" "05:00"; mkDND Monday "22:30" "06:30"])
  = Some (mkDND Sunday "22:30" "06:30")
  /\ representativeTimes [mkDND Tuesday "21:00" "05:00"; mkDND Sunday "22:30" "06:30"]
     = ("21:00", "05:00").
Proof.
  split.
  - pose proof (handleApplyToAll_every_day
                  [mkDND Tuesday "21:00" "05:00"; mkDND Monday "22:30" "06:30"] Sunday)
      as (Hfind & _ & Hmonday & _).
    rewrite (Hmonday (mkDND Monday "22:30" "06:30") eq_refl) in Hfind. exact Hfind.
  - pose proof (handleApplyToAll_every_day
                  [mkDND Tuesday "21:00" "05:00"; mkDND Sunday "22:30" "06:30"] Sunday)
      as (_ & _ & _ & Hfirst & _).
    apply (Hfirst (mkDND Tuesday "21:00" "05:00") [mkDND Sunday "22:30" "06:30"]);
      reflexivity.
Defined.

(** X28. A block never keeps an end time at or before a newly set start
    time: after [updateBlock] sets the start time of a block, the block has
    the new start, and its end time is either cleared or not reached by the
    start; with both times valid the start is strictly before the end. *)
Theorem updateBlock_start_before_end
    (currentBlocks : list TimeBlock) (id : Z) (value : string) (b' : TimeBlock) :
  In b' (updateBlock currentBlocks id (set_startTime value)) ->
  b_id b' = id ->
  b_startTime b' = value
  /\ (truthy (b_endTime b') = true ->
      ge (timeToMinutes (b_startTime b')) (timeToMinutes (b_endTime b')) = false)
  /\ (validHHMM (b_startTime b') = true -> validHHMM (b_endTime b') = true ->
      lt (timeToMinutes (b_startTime b')) (timeToMinutes (b_endTime b')) = true).
Proof.
  intros Hin Hid. unfold updateBlock in Hin.
  apply in_map_iff in Hin as (b & <- & _).
  destruct (b_id b =? id) eqn:Hb.
  2:{ apply Z.eqb_neq in Hb. contradiction. }
  assert (Hmain : forall b'',
            b'' = (if truthy (b_endTime b)
                      && ge (timeToMinutes value) (timeToMinutes (b_endTime b))
                   then mkBlock (b_id b) value "" (b_days b)
                   else mkBlock (b_id b) value (b_endTime b) (b_days b)) ->
            b_startTime b'' = value
            /\ (truthy (b_endTime b'') = true ->
                ge (timeToMinutes (b_startTime b'')) (timeToMinutes (b_endTime b'')) = false)).
  { intros b'' ->.
    destruct (truthy (b_endTime b)) eqn:Ht; simpl;
      [destruct (ge _ _) eqn:Hge; simpl|]; split; try reflexivity;
      try discriminate; try congruence. }
  destruct (Hmain _ eq_refl) as [H1 H2].
  split; [exact H1|]. split; [exact H2|].
  intros Hvs Hve. specialize (H2 (validHHMM_truthy _ Hve)).
  destruct (timeToMinutes_valid _ Hvs) as (s & Es & _).
  destruct (timeToMinutes_valid _ Hve) as (e & Ee & _).
  rewrite Es, Ee in *. simpl in *. lia.
Qed.

Lemma updateBlock_start_before_end_witness :
  let b' := mkBlock 1 "18:00" "" [Monday] in
  b_startTime b' = "18:00"
  /\ (truthy (b_endTime b') = true ->
      ge (timeToMinutes (b_startTime b')) (timeToMinutes (b_endTime b')) = false).
Proof.
  intros b'.
  destruct (updateBlock_start_before_end [mkBlock 1 "09:00" "17:00" [Monday]] 1 "18:00"
              b' (or_introl eq_refl) eq_refl) as (H1 & H2 & _).
  split; [exact H1 | exact H2].
Defined.

(** ** The theme engine and the toast texts *)

(** X29. The priorities of [determineOptimalTheme]: the theme is Evening
    exactly from 19:00 up to 05:00, whatever the rest of the context; in the
    daytime an active DND window of today gives Focus; below that a chunk in
    progress decides alone, the current anchors having no say, and a
    completed chunk counts as no chunk. *)
Theorem determineOptimalTheme_priorities
    (activeChunk : option ActiveChunk) (currentEvents : list (option (list ContextTag)))
    (currentTime : Z) (dndWindows : list DNDWindow) :
  let theme := determineOptimalTheme activeChunk currentEvents currentTime dndWindows in
  let currentTimeInMinutes := getHours currentTime * 60 + getMinutes currentTime in
  (theme = Theme_Evening <-> 19 <= getHours currentTime \/ getHours currentTime < 5)
  /\ (forall w, 5 <= getHours currentTime < 19 ->
        find (fun w => bool_decide (dnd_day w = currentDayOfWeek currentTime)) dndWindows
          = Some w ->
        dndWindowActive currentTimeInMinutes w = true ->
        theme = Theme_Focus)
  /\ (forall chunk otherEvents, activeChunk = Some chunk -> chunk_isComplete chunk = false ->
        theme = determineOptimalTheme activeChunk otherEvents currentTime dndWindows)
  /\ (forall chunk, activeChunk = Some chunk -> chunk_isComplete chunk = true ->
        theme = determineOptimalTheme None currentEvents currentTime dndWindows).
Proof.
  cbv zeta. unfold determineOptimalTheme. cbv zeta.
  destruct ((19 <=? getHours currentTime) || (getHours currentTime <? 5)) eqn:Hnight.
  - split; [|split; [|split]].
    + split; [intros _|reflexivity].
      apply orb_true_iff in Hnight as [H%Z.leb_le | H%Z.ltb_lt]; lia.
    + intros w Hday. apply orb_true_iff in Hnight as [H%Z.leb_le | H%Z.ltb_lt]; lia.
    + reflexivity.
    + reflexivity.
  - apply orb_false_iff in Hnight as [H19%Z.leb_gt H5%Z.ltb_ge].
    split; [|split; [|split]].
    + split; [|lia]. intros Hev. exfalso.
      destruct (find _ dndWindows) as [w|];
        [destruct (dndWindowActive _ w); [discriminate|]|];
        (destruct activeChunk as [[[] []]|]; simpl in Hev; try discriminate;
         unfold themeOfEvents in Hev;
         repeat match type of Hev with
                | (if ?c then _ else _) = _ => destruct c; try discriminate
                end).
    + intros w _ -> ->. reflexivity.
    + intros chunk otherEvents -> Hc.
      destruct (find _ dndWindows) as [w|];
        [destruct (dndWindowActive _ w); [reflexivity|]|];
        rewrite Hc; reflexivity.
    + intros chunk -> Hc.
      destruct (find _ dndWindows) as [w|];
        [destruct (dndWindowActive _ w); [reflexivity|]|];
        rewrite Hc; reflexivity.
Qed.

Lemma determineOptimalTheme_priorities_witness :
  determineOptimalTheme None [Some [Relaxed]] (monday 23 30) [mkDND Monday "23:00" "07:00"]
    = Theme_Evening
  /\ determineOptimalTheme (Some (mkChunk false Creative)) [Some [Rushed]] (monday 13 0)
       [mkDND Monday "12:00" "14:00"] = Theme_Focus.
Proof.
  split.
  - apply (proj1 (determineOptimalTheme_priorities None [Some [Relaxed]] (monday 23 30)
                    [mkDND Monday "23:00" "07:00"])).
    left. vm_compute. discriminate.
  - apply (proj1 (proj2 (determineOptimalTheme_priorities
                           (Some (mkChunk false Creative)) [Some [Rushed]] (monday 13 0)
                           [mkDND Monday "12:00" "14:00"]))
             (mkDND Monday "12:00" "14:00")).
    + vm_compute. split; [discriminate | reflexivity].
    + reflexivity.
    + reflexivity.
Defined.

Lemma formatTimeForToast_all :
  forallb (fun ha => forallb (fun hb => forallb (fun ma => forallb (fun mb =>
     if (10 * ha + hb <=? 23) && (10 * ma + mb <=? 59)
     then String.eqb (formatTimeForToast (hhmm ha hb ma mb))
                     (toastOfMinute (60 * (10 * ha + hb) + (10 * ma + mb)))
     else true)
   digits) digits) digits) digits = true.
Proof. vm_compute. reflexivity. Qed.

(** X30. The toast text of a valid HH:MM time is the text of its minute of
    the day on a 12-hour clock: hour 0 and 12 are shown as 12, the minutes
    are left out on the full hour, AM is written before 12:00 and PM from
    12:00 on. *)
Theorem formatTimeForToast_valid (time : string) (k : Z) :
  validHHMM time = true ->
  timeToMinutes time = Int k ->
  formatTimeForToast time = toastOfMinute k
  /\ 1 <= hour12 (k / 60) <= 12.
Proof.
  intros Hv Hk. split.
  - revert Hk.
    apply validHHMM_shape in Hv as (ha & hb & ma & mb & -> & Ha & Hb & Hc & Hd & Hh & Hm).
    intros Hk.
    assert (Hk' : timeToMinutes (hhmm ha hb ma mb)
                  = Int (60 * (10 * ha + hb) + (10 * ma + mb))).
    { assert (forallb (fun ha => forallb (fun hb => forallb (fun ma => forallb (fun mb =>
         match timeToMinutes (hhmm ha hb ma mb) with
         | Int k => k =? 60 * (10 * ha + hb) + (10 * ma + mb)
         | NaN => false
         end) digits) digits) digits) digits = true) as H by (vm_compute; reflexivity).
      rewrite forallb_forall in H. specialize (H _ Ha).
      rewrite forallb_forall in H. specialize (H _ Hb).
      rewrite forallb_forall in H. specialize (H _ Hc).
      rewrite forallb_forall in H. specialize (H _ Hd).
      destruct (timeToMinutes _) as [|k']; [discriminate|].
      apply Z.eqb_eq in H as ->. reflexivity. }
    rewrite Hk' in Hk. injection Hk as <-.
    pose proof formatTimeForToast_all as H.
    rewrite forallb_forall in H. specialize (H _ Ha).
    rewrite forallb_forall in H. specialize (H _ Hb).
    rewrite forallb_forall in H. specialize (H _ Hc).
    rewrite forallb_forall in H. specialize (H _ Hd).
    apply Z.leb_le in Hh, Hm. rewrite Hh, Hm in H.
    apply String.eqb_eq. exact H.
  - unfold hour12. destruct (k / 60 mod 12 =? 0) eqn:E; [lia|].
    apply Z.eqb_neq in E. pose proof (Z.mod_pos_bound (k / 60) 12). lia.
Qed.

Lemma formatTimeForToast_valid_witness :
  formatTimeForToast "00:05" = "12:05AM".
Proof.
  apply (proj1 (formatTimeForToast_valid "00:05" 5 eq_refl eq_refl)).
Defined.
